(** * weather_helpers/util.py: location resolution and small helpers

    A shallow embedding of the weather skill's utility module.  Python
    values coming out of [response.json()] and out of the configuration
    are represented by the type [Py.value]; functions that perform HTTP
    requests or consult the result cache live in the monad [M], which
    threads the observable state (the log of requests sent, the clock and
    the two result caches) and propagates exceptions. *)

From Stdlib Require Import ZArith List String Ascii Bool Lia PrimFloat FloatAxioms.
From Equations Require Import Equations.
Import ListNotations.

Set Warnings "-register-all".
Local Open Scope string_scope.
Local Open Scope Z_scope.

(** ** Python values, exceptions and the handful of builtins in use *)

Module Py.

(** The exceptions that can leave the functions of the module.
    [RequestException] stands for anything raised by [requests.get] or
    by [Response.json]; [LocationNotFoundError] is the module's own
    class (a subclass of [ValueError]). *)
Inductive exn : Type :=
| IndexError
| KeyError
| AttributeError
| TypeError
| ValueError
| OverflowError
| RequestException
| LocationNotFoundError.

Inductive result (A : Type) : Type :=
| Ok (a : A)
| Raise (e : exn).
Arguments Ok {A} a.
Arguments Raise {A} e.

Definition rbind {A B} (r : result A) (k : A -> result B) : result B :=
  match r with
  | Ok a => k a
  | Raise e => Raise e
  end.

(** What [json.loads] can produce: [None], [bool], [int], [float],
    [str], [list] and [dict] with string keys (insertion ordered). *)
Inductive value : Type :=
| VNone
| VBool (b : bool)
| VInt (z : Z)
| VFloat (f : float)
| VStr (s : string)
| VList (l : list value)
| VDict (d : list (string * value)).

(** [bool(v)]: the truth value tested by [if], [and], [or], [not]. *)
Definition truthy (v : value) : bool :=
  match v with
  | VNone => false
  | VBool b => b
  | VInt z => negb (Z.eqb z 0)
  | VFloat f => negb (PrimFloat.eqb f 0%float)
  | VStr s => negb (String.eqb s "")
  | VList l => match l with [] => false | _ :: _ => true end
  | VDict d => match d with [] => false | _ :: _ => true end
  end.

(** [a or b], with [b] evaluated only when [a] is falsy. *)
Definition or_else (a b : result value) : result value :=
  rbind a (fun x => if truthy x then Ok x else b).

Fixpoint lookup (k : string) (d : list (string * value)) : option value :=
  match d with
  | [] => None
  | (k', v) :: d' => if String.eqb k k' then Some v else lookup k d'
  end.

(** [v.get(k, default)] *)
Definition get_default (v : value) (k : string) (default : value) : result value :=
  match v with
  | VDict d => Ok (match lookup k d with Some x => x | None => default end)
  | _ => Raise AttributeError
  end.

(** [v.get(k)] *)
Definition get (v : value) (k : string) : result value :=
  get_default v k VNone.

(** [v[k]] for a string key [k]. *)
Definition getitem (v : value) (k : string) : result value :=
  match v with
  | VDict d => match lookup k d with Some x => Ok x | None => Raise KeyError end
  | _ => Raise TypeError
  end.

(** [v[0]] *)
Definition getitem0 (v : value) : result value :=
  match v with
  | VList l => match l with x :: _ => Ok x | [] => Raise IndexError end
  | VStr s => match s with String c _ => Ok (VStr (String c "")) | EmptyString => Raise IndexError end
  | VDict _ => Raise KeyError
  | _ => Raise TypeError
  end.

Definition upper_ascii (c : ascii) : ascii :=
  let n := Ascii.nat_of_ascii c in
  if (Nat.leb 97 n && Nat.leb n 122)%bool then Ascii.ascii_of_nat (n - 32) else c.

Fixpoint upper_string (s : string) : string :=
  match s with
  | EmptyString => EmptyString
  | String c s' => String (upper_ascii c) (upper_string s')
  end.

(** [v.upper()]; strings are taken to be ASCII. *)
Definition upper (v : value) : result value :=
  match v with
  | VStr s => Ok (VStr (upper_string s))
  | _ => Raise AttributeError
  end.

(** [v == s] for a string literal [s]. *)
Definition eq_str (v : value) (s : string) : bool :=
  match v with
  | VStr t => String.eqb t s
  | _ => false
  end.

(** [k in d] for a dict display [d]. *)
Definition contains (k : string) (d : list (string * value)) : bool :=
  match lookup k d with Some _ => true | None => false end.

(** [d[k] = v] *)
Fixpoint setitem (d : list (string * value)) (k : string) (v : value) : list (string * value) :=
  match d with
  | [] => [(k, v)]
  | (k', v') :: d' => if String.eqb k k' then (k, v) :: d' else (k', v') :: setitem d' k v
  end.

(** Identity of values as cache keys. *)
Fixpoint value_eqb (a b : value) {struct a} : bool :=
  match a, b with
  | VNone, VNone => true
  | VBool x, VBool y => Bool.eqb x y
  | VInt x, VInt y => Z.eqb x y
  | VFloat x, VFloat y => PrimFloat.Leibniz.eqb x y
  | VStr x, VStr y => String.eqb x y
  | VList x, VList y =>
      (fix go (l1 l2 : list value) : bool :=
         match l1, l2 with
         | [], [] => true
         | u :: l1', w :: l2' => value_eqb u w && go l1' l2'
         | _, _ => false
         end) x y
  | VDict x, VDict y =>
      (fix go (l1 l2 : list (string * value)) : bool :=
         match l1, l2 with
         | [], [] => true
         | (k1, u) :: l1', (k2, w) :: l2' => String.eqb k1 k2 && value_eqb u w && go l1' l2'
         | _, _ => false
         end) x y
  | _, _ => false
  end.

End Py.
Import Py.

Declare Scope py_scope.
Delimit Scope py_scope with py.
Notation "x <- a ;; b" := (rbind a (fun x => b))
  (at level 100, a at next level, right associativity) : py_scope.
Notation "a 'or' b" := (or_else a b) (at level 85, right associativity) : py_scope.

(** ** [get_time_period] *)

(** The fields of a [datetime.datetime] object. *)
Record datetime : Type := {
  year : Z; month : Z; day : Z;
  hour : Z; minute : Z; second : Z; microsecond : Z
}.

Definition get_time_period (intent_datetime : datetime) : string :=
  let hour := hour intent_datetime in
  if (1 <=? hour) && (hour <? 5) then "early morning"
  else if (5 <=? hour) && (hour <? 12) then "morning"
  else if (12 <=? hour) && (hour <? 17) then "afternoon"
  else if (17 <=? hour) && (hour <? 20) then "evening"
  else "overnight".

(** ** [chunk_list] *)

(** [tuple(islice(it, size))] on the iterator whose remaining items are
    [it]: the tuple taken and the items left. *)
Definition islice_tuple {A} (it : list A) (size : nat) : list A * list A :=
  (firstn size it, skipn size it).

(** Case analysis that remembers which value was analysed. *)
Definition inspect {A} (a : A) : {b : A | a = b} := exist _ a eq_refl.

(** [list(iter(lambda: tuple(islice(it, size)), ()))]: call the lambda
    until it returns the sentinel [()]. *)
Equations? chunk_loop {A} (it : list A) (size : nat) : list (list A) by wf (List.length it) lt :=
  chunk_loop it size with inspect (fst (islice_tuple it size)) => {
    | exist _ [] _ := [];
    | exist _ (x :: c) e := (x :: c) :: chunk_loop (snd (islice_tuple it size)) size }.
Proof.
  unfold islice_tuple in *; simpl in *.
  destruct size as [|n]; [discriminate|].
  destruct it as [|y it']; [discriminate|].
  simpl. rewrite List.length_skipn. lia.
Qed.

(** [sys.maxsize], the largest stop [islice] accepts (the value is that
    of a 64-bit CPython). *)
Definition sys_maxsize : Z := 2 ^ 63 - 1.

(** [islice] accepts as stop an integer with [0 <= stop <= sys.maxsize]
    and raises [ValueError] for any other; the lambda is called at least
    once, so the check happens for an empty list too.  Tuples are
    represented by lists. *)
Definition chunk_list {A} (it : list A) (size : Z) : result (list (list A)) :=
  if (size <? 0) || (sys_maxsize <? size) then Raise ValueError
  else Ok (chunk_loop it (Z.to_nat size)).

(** ** The world outside the module *)

(** One call of [requests.get(url, params=..., headers=...)]. *)
Record request : Type := {
  url : string;
  params : list (string * value);
  headers : list (string * string)
}.

(** The collaborators the module only calls.  [http] is the geocoding
    provider: the decoded JSON body it answers to a request, given the
    requests sent before ([None]: the transport or the decoding failed).
    [Configuration] is the mapping returned by [Configuration()].
    [TimezoneFinder] is [None] when the import of the optional package
    failed, and otherwise [timezone_at], applied to [lng] and [lat]
    ([None]: it raised; [Some None]: it found no zone).  The last two
    fields are the conversions done by the builtin [float]. *)
Record Env : Type := {
  http : list request -> request -> option value;
  Configuration : list (string * value);
  TimezoneFinder : option (float -> float -> option (option string));
  float_of_str : string -> option float;
  float_of_int : Z -> option float
}.

(** A cache maps a key to a stored result and the time it was stored. *)
Definition cache (K : Type) : Type := list (K * (value * Z)).

(** What a call can observe and change: the requests sent so far (oldest
    first), the clock in seconds, and the caches of the two decorated
    functions. *)
Record state : Type := {
  trace : list request;
  clock : Z;
  geo_cache : cache string;
  rev_cache : cache (value * value)
}.

Definition initial_state (t0 : Z) : state :=
  {| trace := []; clock := t0; geo_cache := []; rev_cache := [] |}.

Definition set_trace (t : list request) (s : state) : state :=
  {| trace := t; clock := clock s; geo_cache := geo_cache s; rev_cache := rev_cache s |}.

Definition set_geo_cache (c : cache string) (s : state) : state :=
  {| trace := trace s; clock := clock s; geo_cache := c; rev_cache := rev_cache s |}.

Definition set_rev_cache (c : cache (value * value)) (s : state) : state :=
  {| trace := trace s; clock := clock s; geo_cache := geo_cache s; rev_cache := c |}.

(** Time passing between two calls. *)
Definition advance (dt : Z) (s : state) : state :=
  {| trace := trace s; clock := clock s + dt; geo_cache := geo_cache s; rev_cache := rev_cache s |}.

(** Computations: a result or an exception, and the state left behind
    (an exception does not undo the requests already sent). *)
Definition M (A : Type) : Type := state -> result A * state.

Definition ret {A} (a : A) : M A := fun s => (Ok a, s).

Definition raise {A} (e : exn) : M A := fun s => (Raise e, s).

Definition bind {A B} (m : M A) (k : A -> M B) : M B :=
  fun s =>
    match m s with
    | (Ok a, s') => k a s'
    | (Raise e, s') => (Raise e, s')
    end.

Definition lift {A} (r : result A) : M A := fun s => (r, s).

Declare Scope m_scope.
Delimit Scope m_scope with M.
Notation "x <-- m ;; k" := (bind m (fun x => k))
  (at level 100, m at next level, right associativity) : m_scope.
Notation "' ( x , y ) <-- m ;; k" := (bind m (fun p => let '(x, y) := p in k))
  (at level 100, m at next level, x name, y name, right associativity) : m_scope.

Local Open Scope py_scope.
Local Open Scope m_scope.

(** ** The result cache *)

Section Cache.
Context {K : Type} (key_eqb : K -> K -> bool).

Fixpoint cache_lookup (k : K) (c : cache K) : option (value * Z) :=
  match c with
  | [] => None
  | (k', e) :: c' => if key_eqb k k' then Some e else cache_lookup k c'
  end.

Fixpoint cache_store (k : K) (e : value * Z) (c : cache K) : cache K :=
  match c with
  | [] => [(k, e)]
  | (k', e') :: c' => if key_eqb k k' then (k, e) :: c' else (k', e') :: cache_store k e c'
  end.

(** Modelled from the spec: the decorator [timed_lru_cache] is imported
    from [ovos_utils], whose code is not part of the repository.  The spec
    describes it as a map "key -> (value, insertedAt)" with one entry per
    distinct input tuple, unbounded in entry count, where "a lookup checks
    [now - insertedAt < ttl] and otherwise treats the entry as absent and
    recomputes"; the time is stamped at insertion.  A call that raises
    stores nothing.  [sel] and [upd] select the cache of the decorated
    function in the state. *)
Definition timed_lru_cache (seconds : Z)
    (sel : state -> cache K) (upd : cache K -> state -> state)
    (f : K -> M value) (k : K) : M value :=
  fun s =>
    let recompute :=
      match f k s with
      | (Ok v, s') => (Ok v, upd (cache_store k (v, clock s') (sel s')) s')
      | (Raise e, s') => (Raise e, s')
      end in
    match cache_lookup k (sel s) with
    | Some (v, inserted_at) =>
        if clock s - inserted_at <? seconds then (Ok v, s) else recompute
    | None => recompute
    end.

End Cache.

Definition coord_eqb (a b : value * value) : bool :=
  value_eqb (fst a) (fst b) && value_eqb (snd a) (snd b).

(** ** The functions of the module *)

Section Util.
Variable env : Env.

(** [requests.get(url, params=params, headers=headers).json()] *)
Definition requests_get_json (url : string) (params : list (string * value))
    (headers : list (string * string)) : M value :=
  fun s =>
    let r := {| url := url; params := params; headers := headers |} in
    (match http env (trace s) r with
     | Some body => Ok body
     | None => Raise RequestException
     end,
     set_trace (trace s ++ [r]) s).

(** The builtin [float(v)]. *)
Definition py_float (v : value) : result float :=
  match v with
  | VFloat f => Ok f
  | VBool b => Ok (if b then 1%float else 0%float)
  | VInt z => match float_of_int env z with Some f => Ok f | None => Raise OverflowError end
  | VStr s => match float_of_str env s with Some f => Ok f | None => Raise ValueError end
  | _ => Raise TypeError
  end.

Fixpoint replace_char (old new : ascii) (s : string) : string :=
  match s with
  | EmptyString => EmptyString
  | String c s' => String (if Ascii.eqb c old then new else c) (replace_char old new s')
  end.

(** [v.replace("/", " ")] *)
Definition replace_slash (v : value) : result value :=
  match v with
  | VStr s => Ok (VStr (replace_char "/"%char " "%char s))
  | _ => Raise AttributeError
  end.

Definition _get_lat_lon (kwargs : list (string * value)) : M (value * value) :=
  lat <-- lift (get (VDict kwargs) "latitude" or get (VDict kwargs) "lat") ;;
  lon <-- lift (get (VDict kwargs) "longitude" or get (VDict kwargs) "lon"
                or get (VDict kwargs) "lng") ;;
  if negb (truthy lat) || negb (truthy lon) then
    cfg <-- lift (location <- get_default (VDict (Configuration env)) "location" (VDict []) ;;
                  get_default location "coordinate" (VDict [])) ;;
    lat <-- lift (get cfg "latitude") ;;
    lon <-- lift (get cfg "longitude") ;;
    ret (lat, lon)
  else ret (lat, lon).

Definition UTC : value := VDict [("name", VStr "UTC"); ("code", VStr "UTC")].

Definition _get_timezone (kwargs : list (string * value)) : M value :=
  match TimezoneFinder env with
  | Some timezone_at =>
      '(lat, lon) <-- _get_lat_lon kwargs ;;
      lng_f <-- lift (py_float lon) ;;
      lat_f <-- lift (py_float lat) ;;
      tz <-- lift (match timezone_at lng_f lat_f with
                   | Some (Some z) => Ok (VStr z)
                   | Some None => Ok VNone
                   | None => Raise ValueError
                   end) ;;
      name <-- lift (replace_slash tz) ;;
      ret (VDict [("name", name); ("code", tz)])
  | None =>
      cfg <-- lift (location <- get_default (VDict (Configuration env)) "location" (VDict []) ;;
                    get location "timezone") ;;
      lift (Ok cfg or Ok UTC)
  end.

Definition user_agent : list (string * string) := [("User-Agent", "OVOS/1.0")].

Definition reverse_url : string := "https://nominatim.openstreetmap.org/reverse".
Definition search_url : string := "https://nominatim.openstreetmap.org/search".
Definition details_url : string := "https://nominatim.openstreetmap.org/details.php".

(** The body of [get_reverse_geolocation], under its decorator. *)
Definition get_reverse_geolocation_body (key : value * value) : M value :=
  let '(lat, lon) := key in
  details <-- requests_get_json reverse_url
                [("lat", lat); ("lon", lon); ("format", VStr "json")] user_agent ;;
  address <-- lift (get details "address") ;;
  display_name <-- lift (getitem details "display_name") ;;
  city_code <-- lift (get address "postcode" or Ok (VStr "")) ;;
  city_name <-- lift (get address "city" or
                      get address "village" or
                      get address "town" or
                      get address "hamlet" or
                      get address "county" or Ok (VStr "")) ;;
  state_code <-- lift (get address "state_code" or
                       get address "ISO3166-2-lvl4" or
                       get address "ISO3166-2-lvl6"
                       or Ok (VStr "")) ;;
  state_name <-- lift (get address "state" or
                       get address "county"
                       or Ok (VStr "")) ;;
  country_code <-- lift ((cc <- get_default address "country_code" (VStr "") ;; upper cc)
                         or Ok (VStr "")) ;;
  country_name <-- lift (get address "country" or Ok (VStr "")) ;;
  latitude <-- lift (get details "lat" or Ok lat) ;;
  longitude <-- lift (get details "lon" or Ok lon) ;;
  let location :=
    [("address", display_name);
     ("city", VDict [
        ("code", city_code);
        ("name", city_name);
        ("state", VDict [
           ("code", state_code);
           ("name", state_name);
           ("country", VDict [
              ("code", country_code);
              ("name", country_name)])])]);
     ("coordinate", VDict [
        ("latitude", latitude);
        ("longitude", longitude)])] in
  if negb (contains "timezone" location) then
    tz_lat <-- lift (get details "lat" or Ok lat) ;;
    tz_lon <-- lift (get details "lon" or Ok lon) ;;
    tz <-- _get_timezone [("lat", tz_lat); ("lon", tz_lon)] ;;
    ret (VDict (setitem location "timezone" tz))
  else ret (VDict location).

(** [@timed_lru_cache(seconds=600)] on [get_reverse_geolocation(lat, lon)]. *)
Definition get_reverse_geolocation (lat lon : value) : M value :=
  timed_lru_cache coord_eqb 600 rev_cache set_rev_cache
    get_reverse_geolocation_body (lat, lon).

(** The body of [_get_geolocation], under its decorator. *)
Definition _get_geolocation_body (location : string) : M value :=
  results <-- requests_get_json search_url
                [("q", VStr location); ("format", VStr "json"); ("limit", VInt 1)]
                user_agent ;;
  data <-- lift (getitem0 results) ;;
  lat <-- lift (get data "lat") ;;
  lon <-- lift (get data "lon") ;;
  if truthy lat && truthy lon then
    get_reverse_geolocation lat lon
  else
    osmid <-- lift (getitem data "osm_id") ;;
    osmtype <-- lift (t <- getitem data "osm_type" ;; c <- getitem0 t ;; upper c) ;;
    details <-- requests_get_json details_url
                  [("osmid", osmid); ("osmtype", osmtype); ("format", VStr "json")]
                  user_agent ;;
    tags <-- lift (get details "addresstags" or Ok (VDict [])) ;;
    place_type <-- lift ((x <- getitem details "extratags" ;; get x "linked_place") or
                         get details "category" or
                         get data "type" or get data "class") ;;
    name <-- lift (getitem details "localname" or
                   (n <- getitem details "names" ;; get n "name") or
                   (n <- getitem details "names" ;; get n "official_name") or
                   getitem data "display_name") ;;
    cc <-- lift (getitem details "country_code" or
                 get tags "country" or
                 (x <- getitem details "extratags" ;; get x "ISO3166-1:alpha2") or
                 Ok (VStr "")) ;;
    address <-- lift (getitem data "display_name") ;;
    city_code <-- lift (get tags "postcode" or
                        getitem details "calculated_postcode" or Ok (VStr "")) ;;
    let city_name := if eq_str place_type "city" then name else VStr "" in
    state_code <-- lift (get tags "state_code" or
                         getitem details "calculated_postcode" or Ok (VStr "")) ;;
    state_name <-- lift (if eq_str place_type "state" then Ok name else get tags "state") ;;
    country_code <-- lift (upper cc) ;;
    let country_name := if eq_str place_type "country" then name else VStr "" in
    let location :=
      [("address", address);
       ("city", VDict [
          ("code", city_code);
          ("name", city_name);
          ("state", VDict [
             ("code", state_code);
             ("name", state_name);
             ("country", VDict [
                ("code", country_code);
                ("name", country_name)])])]);
       ("coordinate", VDict [
          ("latitude", lat);
          ("longitude", lon)])] in
    if negb (contains "timezone" location) then
      tz <-- _get_timezone [("lon", lon); ("lat", lat)] ;;
      ret (VDict (setitem location "timezone" tz))
    else ret (VDict location).

(** [@timed_lru_cache(seconds=600)] on [_get_geolocation(location)]. *)
Definition _get_geolocation (location : string) : M value :=
  timed_lru_cache String.eqb 600 geo_cache set_geo_cache
    _get_geolocation_body location.

Definition get_geolocation (location : string) : M value :=
  geolocation <-- _get_geolocation location ;;
  match geolocation with
  | VNone => raise LocationNotFoundError
  | _ =>
      city <-- lift (c <- getitem geolocation "city" ;; getitem c "name") ;;
      region <-- lift (c <- getitem geolocation "city" ;; s <- getitem c "state" ;;
                       getitem s "name") ;;
      country <-- lift (c <- getitem geolocation "city" ;; s <- getitem c "state" ;;
                        k <- getitem s "country" ;; getitem k "name") ;;
      latitude <-- lift (c <- getitem geolocation "coordinate" ;; getitem c "latitude") ;;
      longitude <-- lift (c <- getitem geolocation "coordinate" ;; getitem c "longitude") ;;
      timezone <-- lift (t <- getitem geolocation "timezone" ;; getitem t "code") ;;
      ret (VDict [("city", city);
                  ("region", region);
                  ("country", country);
                  ("latitude", latitude);
                  ("longitude", longitude);
                  ("timezone", timezone)])
  end.

End Util.

(** ** Vocabulary of the specification *)

(** The five periods of the day. *)
Definition periods : list string :=
  ["early morning"; "morning"; "afternoon"; "evening"; "overnight"].

(** A chunking in which every tuple has exactly [size] items, except
    that the final one may hold fewer (but at least one). *)
Fixpoint full_but_last {A} (size : nat) (chunks : list (list A)) : Prop :=
  match chunks with
  | [] => True
  | [c] => (1 <= List.length c <= size)%nat
  | c :: rest => List.length c = size /\ full_but_last size rest
  end.

(** The three requests the module sends. *)
Definition search_request (location : string) : request :=
  {| url := search_url;
     params := [("q", VStr location); ("format", VStr "json"); ("limit", VInt 1)];
     headers := user_agent |}.

Definition reverse_request (lat lon : value) : request :=
  {| url := reverse_url;
     params := [("lat", lat); ("lon", lon); ("format", VStr "json")];
     headers := user_agent |}.

Definition details_request (osmid osmtype : value) : request :=
  {| url := details_url;
     params := [("osmid", osmid); ("osmtype", osmtype); ("format", VStr "json")];
     headers := user_agent |}.

(** The field of a JSON object reached by a path of keys, if there is
    one. *)
Fixpoint field (v : value) (path : list string) : option value :=
  match path with
  | [] => Some v
  | k :: rest =>
      match v with
      | VDict d => match lookup k d with Some x => field x rest | None => None end
      | _ => None
      end
  end.

(** "First non-empty of" a list of candidate fields, each absent or
    present: the first one that is present with a truthy value, and the
    empty string when there is none. *)
Fixpoint first_nonempty (candidates : list (option value)) : value :=
  match candidates with
  | [] => VStr ""
  | Some v :: rest => if truthy v then v else first_nonempty rest
  | None :: rest => first_nonempty rest
  end.

(** A forward match "carries a usable coordinate" when [lat] and [lon]
    are both present and non-empty. *)
Definition usable_coordinate (data : value) : bool :=
  match field data ["lat"], field data ["lon"] with
  | Some lat, Some lon => truthy lat && truthy lon
  | _, _ => false
  end.

(** The value read by [data.get(k)]. *)
Definition get_or_none (data : list (string * value)) (k : string) : value :=
  match lookup k data with Some v => v | None => VNone end.

(** The forward search for [location], sent in state [s], is answered
    with a list whose first element, the best match, is the object
    [data]. *)
Definition forward_match (env : Env) (s : state) (location : string)
    (data : list (string * value)) : Prop :=
  exists results,
    http env (trace s) (search_request location) = Some results /\
    getitem0 results = Ok (VDict data).

(** The key of the details lookup for a match: its [osm_id], and the
    first letter of its [osm_type] in upper case. *)
Definition details_key (data : list (string * value)) : result (value * value) :=
  osmid <- getitem (VDict data) "osm_id" ;;
  osmtype <- (t <- getitem (VDict data) "osm_type" ;; c <- getitem0 t ;; upper c) ;;
  Ok (osmid, osmtype).

(** The resolution of [location] started in state [s] takes the details
    path: the best match [data] has no usable coordinate, and the details
    lookup keyed by it is answered with [details]. *)
Definition details_path (env : Env) (s : state) (location : string)
    (data : list (string * value)) (details : value) : Prop :=
  forward_match env s location data /\
  usable_coordinate (VDict data) = false /\
  exists osmid osmtype,
    details_key data = Ok (osmid, osmtype) /\
    http env (trace s ++ [search_request location]) (details_request osmid osmtype)
    = Some details.

(** The canonical location record, as both paths lay it out. *)
Definition location_record (address city_code city_name state_code state_name
    country_code country_name latitude longitude timezone : value) : value :=
  VDict [("address", address);
         ("city", VDict [
            ("code", city_code);
            ("name", city_name);
            ("state", VDict [
               ("code", state_code);
               ("name", state_name);
               ("country", VDict [
                  ("code", country_code);
                  ("name", country_name)])])]);
         ("coordinate", VDict [
            ("latitude", latitude);
            ("longitude", longitude)]);
         ("timezone", timezone)].

(** The country-code candidates of a details response in the order in
    which [_get_geolocation] consults them. *)
Definition country_code_candidates (details : value) : list (option value) :=
  [field details ["country_code"];
   field details ["addresstags"; "country"];
   field details ["extratags"; "ISO3166-1:alpha2"]].

(** The same candidates in the order the specification lists them:
    address tags' country, details country_code, ISO3166-1:alpha2 tag. *)
Definition spec_country_code_candidates (details : value) : list (option value) :=
  [field details ["addresstags"; "country"];
   field details ["country_code"];
   field details ["extratags"; "ISO3166-1:alpha2"]].

(** A record carries a timezone field. *)
Definition has_timezone (v : value) : bool :=
  match field v ["timezone"] with Some _ => true | None => false end.

Definition cache_records {K} (c : cache K) : list value :=
  map (fun e => fst (snd e)) c.

(** Every record held in the two caches carries a timezone field. *)
Definition caches_have_timezone (s : state) : Prop :=
  Forall (fun v => has_timezone v = true) (cache_records (geo_cache s)) /\
  Forall (fun v => has_timezone v = true) (cache_records (rev_cache s)).

(** The states the module can be in: it starts with empty caches and no
    request sent; time passes; its functions are called. *)
Inductive reachable (env : Env) : state -> Prop :=
| reach_initial (t0 : Z) : reachable env (initial_state t0)
| reach_advance (s : state) (dt : Z) :
    reachable env s -> 0 <= dt -> reachable env (advance dt s)
| reach_get_geolocation (s : state) (location : string) :
    reachable env s -> reachable env (snd (get_geolocation env location s))
| reach__get_geolocation (s : state) (location : string) :
    reachable env s -> reachable env (snd (_get_geolocation env location s))
| reach_get_reverse_geolocation (s : state) (lat lon : value) :
    reachable env s -> reachable env (snd (get_reverse_geolocation env lat lon s)).

(** A call in state [s] with key [k] is served from the cache [c]: an
    entry is stored for [k] and it is younger than 600 seconds. *)
Definition served_from_cache {K} (key_eqb : K -> K -> bool) (c : cache K) (k : K)
    (now : Z) : bool :=
  match cache_lookup key_eqb k c with
  | Some (_, inserted_at) => now - inserted_at <? 600
  | None => false
  end.

(** The configuration has the shape the module reads it with: its
    [location] section, when there is one, is a mapping. *)
Definition location_section_ok (cfg : list (string * value)) : bool :=
  match lookup "location" cfg with
  | None => true
  | Some (VDict _) => true
  | Some _ => false
  end.

(** The statically configured timezone, when one is configured. *)
Definition configured_timezone (cfg : list (string * value)) : option value :=
  match field (VDict cfg) ["location"; "timezone"] with
  | Some tz => if truthy tz then Some tz else None
  | None => None
  end.

(** ** Vocabulary of the proofs *)

(** A computation that leaves the state as it found it, whatever its
    outcome: it sends no request and touches no cache. *)
Definition keeps_state {A} (m : M A) : Prop := forall s, snd (m s) = s.

(** [y] is what an expression read from a candidate field [o]: the
    field's value when that is truthy, and something falsy otherwise. *)
Definition reads (o : option value) (y : value) : Prop :=
  match o with
  | Some v => if truthy v then y = v else truthy y = false
  | None => truthy y = false
  end.

(** Results and computations that do not raise [LocationNotFoundError]. *)
Definition harmless {A} (r : result A) : Prop := r <> Raise LocationNotFoundError.

Definition never_unknown {A} (m : M A) : Prop :=
  forall s, harmless (fst (m s)).

(** ** Sample collaborators *)

(** A provider that answers each endpoint with a fixed body. *)
Definition fixed_provider (search reverse details : option value)
    (history : list request) (r : request) : option value :=
  if String.eqb (url r) search_url then search
  else if String.eqb (url r) reverse_url then reverse
  else if String.eqb (url r) details_url then details
  else None.

Definition lisbon_config : list (string * value) :=
  [("lang", VStr "pt-pt");
   ("location", VDict [
      ("coordinate", VDict [("latitude", VFloat 38.75%float);
                            ("longitude", VFloat (-9.125)%float)]);
      ("timezone", VDict [("name", VStr "Europe Lisbon");
                          ("code", VStr "Europe/Lisbon")])])].

Definition sample_env (search reverse details : option value) : Env :=
  {| http := fixed_provider search reverse details;
     Configuration := lisbon_config;
     TimezoneFinder := None;
     float_of_str := fun _ => None;
     float_of_int := fun _ => None |}.

(** A forward match with a coordinate, and the reverse answer for it. *)
Definition porto_match : list (string * value) :=
        [("place_id", VInt 12741);
         ("osm_type", VStr "relation");
         ("osm_id", VInt 3372453);
         ("lat", VStr "41.1494512");
         ("lon", VStr "-8.6107884");
         ("class", VStr "boundary");
         ("type", VStr "administrative");
         ("display_name", VStr "Porto, Portugal")].

Definition porto_reverse : value :=
  VDict [("lat", VStr "41.1495");
         ("lon", VStr "-8.6108");
         ("display_name", VStr "Praca da Liberdade, Porto, Portugal");
         ("address", VDict [("city", VStr "Porto");
                            ("county", VStr "Porto");
                            ("postcode", VStr "4000-069");
                            ("country", VStr "Portugal");
                            ("country_code", VStr "pt")])].

(** A reverse answer whose address names a county only. *)
Definition county_reverse : value :=
  VDict [("display_name", VStr "Kerry, Ireland");
         ("address", VDict [("county", VStr "Kerry");
                            ("country", VStr "Ireland");
                            ("country_code", VStr "ie")])].

(** A forward match without a coordinate, and the details answer for
    it; the details carry their own coordinate in [centroid]. *)
Definition olivenza_match : list (string * value) :=
        [("place_id", VInt 881);
         ("osm_type", VStr "relation");
         ("osm_id", VInt 344884);
         ("class", VStr "boundary");
         ("type", VStr "administrative");
         ("display_name", VStr "Olivenza, Badajoz")].

Definition olivenza_details : value :=
  VDict [("localname", VStr "Olivenza");
         ("names", VDict [("name", VStr "Olivenza")]);
         ("addresstags", VDict [("country", VStr "pt"); ("postcode", VStr "06100")]);
         ("category", VStr "boundary");
         ("country_code", VStr "es");
         ("calculated_postcode", VStr "06100");
         ("extratags", VDict [("linked_place", VStr "city");
                              ("ISO3166-1:alpha2", VStr "ES")]);
         ("centroid", VDict [("type", VStr "Point");
                             ("coordinates", VList [VFloat (-7.125)%float;
                                                    VFloat 38.625%float])])].

Definition porto_env : Env := sample_env (Some (VList [VDict porto_match])) (Some porto_reverse) None.
Definition county_env : Env := sample_env None (Some county_reverse) None.
Definition olivenza_env : Env :=
  sample_env (Some (VList [VDict olivenza_match])) None (Some olivenza_details).
(** The provider knows no place of that name: the search answers [[]]. *)
Definition atlantis_env : Env := sample_env (Some (VList [])) None None.

(** The same provider with the offline timezone index installed; the
    index here separates the two zones at 8 degrees west. *)
Definition olivenza_env_with_index : Env :=
  {| http := fixed_provider (Some (VList [VDict olivenza_match])) None
               (Some olivenza_details);
     Configuration := lisbon_config;
     TimezoneFinder :=
       Some (fun lng lat =>
               Some (Some (if PrimFloat.ltb lng (-8)%float
                           then "Europe/Lisbon" else "Europe/Madrid")));
     float_of_str := fun _ => None;
     float_of_int := fun _ => None |}.

(** A state reached by resolving Porto and, five minutes later,
    Olivenza against a provider that knows both. *)
Definition iberia_env : Env :=
  {| http := fun _ r =>
       if String.eqb (url r) reverse_url then Some porto_reverse
       else if String.eqb (url r) details_url then Some olivenza_details
       else match lookup "q" (params r) with
            | Some (VStr "Porto") => Some (VList [VDict porto_match])
            | Some (VStr "Olivenza") => Some (VList [VDict olivenza_match])
            | _ => Some (VList [])
            end;
     Configuration := lisbon_config;
     TimezoneFinder := None;
     float_of_str := fun _ => None;
     float_of_int := fun _ => None |}.

Definition iberia_state : state :=
  snd (get_geolocation iberia_env "Olivenza"
         (advance 300 (snd (get_geolocation iberia_env "Porto" (initial_state 0))))).

(** ** Vocabulary of the further properties *)

(** The first candidate that is present with a truthy value, and
    [otherwise] when there is none: [a or b or ... or otherwise]. *)
Fixpoint first_truthy (candidates : list (option value)) (otherwise : value) : value :=
  match candidates with
  | [] => otherwise
  | Some v :: rest => if truthy v then v else first_truthy rest otherwise
  | None :: rest => first_truthy rest otherwise
  end.

(** The value of an optional field as [.get] reads it. *)
Definition or_none (o : option value) : value :=
  match o with Some v => v | None => VNone end.

(** The string held by an optional field, [""] when it is absent. *)
Definition string_or_empty (o : option value) : string :=
  match o with Some (VStr c) => c | _ => "" end.

(** An optional field is absent or holds a string. *)
Definition absent_or_string (o : option value) : bool :=
  match o with None => true | Some (VStr _) => true | Some _ => false end.

(** The [coordinate] section of the configuration is readable: the
    [location] section, when present, is a mapping, and so is its
    [coordinate] entry. *)
Definition coordinate_section_ok (cfg : list (string * value)) : bool :=
  match lookup "location" cfg with
  | None => true
  | Some (VDict section) =>
      match lookup "coordinate" section with
      | None => true
      | Some (VDict _) => true
      | Some _ => false
      end
  | Some _ => false
  end.

(** The device coordinate held in the configuration. *)
Definition configured_coordinate (cfg : list (string * value)) (k : string) : value :=
  or_none (field (VDict cfg) ["location"; "coordinate"; k]).

(** A value laid out as the canonical record. *)
Definition is_location_record (v : value) : Prop :=
  exists address city_code city_name state_code state_name country_code country_name
         latitude longitude timezone,
    v = location_record address city_code city_name state_code state_name
          country_code country_name latitude longitude timezone.

(** Every record held in the two caches is laid out as the canonical
    record. *)
Definition caches_hold_records (s : state) : Prop :=
  Forall is_location_record (cache_records (geo_cache s)) /\
  Forall is_location_record (cache_records (rev_cache s)).

(** The requests the module can send. *)
Definition module_request (r : request) : Prop :=
  (exists location, r = search_request location) \/
  (exists lat lon, r = reverse_request lat lon) \/
  (exists osmid osmtype, r = details_request osmid osmtype).

(** The answer of the provider to a coordinate it cannot resolve. *)
Definition unable_to_geocode : value := VDict [("error", VStr "Unable to geocode")].

Definition ocean_env : Env := sample_env None (Some unable_to_geocode) None.

(** A forward match that has neither a coordinate nor an [osm_id]. *)
Definition keyless_match : list (string * value) :=
  [("place_id", VInt 7); ("osm_type", VStr "way"); ("display_name", VStr "Nowhere")].

Definition keyless_env : Env := sample_env (Some (VList [VDict keyless_match])) None None.

(** A provider that cannot be reached. *)
Definition offline_env : Env := sample_env None None None.

(** A device with the timezone index installed (the stand-in separates
    two zones at 8 degrees west) and a configured coordinate. *)
Definition indexed_env : Env :=
  {| http := fun _ _ => None;
     Configuration := lisbon_config;
     TimezoneFinder :=
       Some (fun lng lat =>
               Some (if PrimFloat.ltb lng (-30)%float then None
                     else Some (if PrimFloat.ltb lng (-8)%float
                                then "Europe/Lisbon" else "Europe/Madrid")));
     float_of_str := fun x => if String.eqb x "-3.5" then Some (-3.5)%float
                              else if String.eqb x "40.5" then Some 40.5%float
                              else if String.eqb x "-40.5" then Some (-40.5)%float
                              else None;
     float_of_int := fun _ => None |}.

(** In the fallback of [_get_timezone], taken when the timezone index
    is unavailable, the configured timezone (if one is configured) has a
    code to read. *)
Definition fallback_has_code (env : Env) : Prop :=
  TimezoneFinder env = None ->
  forall tz, configured_timezone (Configuration env) = Some tz ->
             exists code, getitem tz "code" = Ok code.

(** The reads [v["timezone"]["code"]] succeed. *)
Definition timezone_with_code (v : value) : Prop :=
  exists tz code, getitem v "timezone" = Ok tz /\ getitem tz "code" = Ok code.

(** A device whose configured timezone is a plain string. *)
Definition string_zone_env : Env :=
  {| http := fixed_provider (Some (VList [VDict porto_match])) (Some porto_reverse) None;
     Configuration := [("location", VDict [("timezone", VStr "Europe/Lisbon")])];
     TimezoneFinder := None;
     float_of_str := fun _ => None;
     float_of_int := fun _ => None |}.

(** A forward match with an empty latitude and a longitude. *)
Definition half_match : list (string * value) :=
  [("place_id", VInt 99);
   ("osm_type", VStr "node");
   ("osm_id", VInt 42);
   ("lat", VStr "");
   ("lon", VStr "-50");
   ("display_name", VStr "Somewhere")].

Definition half_env : Env :=
  sample_env (Some (VList [VDict half_match])) None (Some olivenza_details).

(** * Properties *)

(** ** [get_time_period] *)

Lemma get_time_period_hour (dt : datetime) (h : Z) :
  hour dt = h ->
  get_time_period dt =
    if (1 <=? h) && (h <? 5) then "early morning"
    else if (5 <=? h) && (h <? 12) then "morning"
    else if (12 <=? h) && (h <? 17) then "afternoon"
    else if (17 <=? h) && (h <? 20) then "evening"
    else "overnight".
Proof. intros <-. reflexivity. Qed.

Ltac hour_cases h :=
  destruct (Z.leb_spec 1 h), (Z.ltb_spec h 5), (Z.leb_spec 5 h), (Z.ltb_spec h 12),
    (Z.leb_spec 12 h), (Z.ltb_spec h 17), (Z.leb_spec 17 h), (Z.ltb_spec h 20);
  simpl; try lia; auto.

(** C7.  For every datetime, [get_time_period] returns one of the five
    periods, and which one depends on the hour alone: hours in [1,5) give
    "early morning", [5,12) "morning", [12,17) "afternoon", [17,20)
    "evening", and every other hour (0 and [20,24) among them) gives
    "overnight". *)
Theorem get_time_period_boundaries (dt : datetime) :
  In (get_time_period dt) periods /\
  (1 <= hour dt < 5 -> get_time_period dt = "early morning") /\
  (5 <= hour dt < 12 -> get_time_period dt = "morning") /\
  (12 <= hour dt < 17 -> get_time_period dt = "afternoon") /\
  (17 <= hour dt < 20 -> get_time_period dt = "evening") /\
  (hour dt < 1 \/ 20 <= hour dt -> get_time_period dt = "overnight") /\
  (forall dt', hour dt' = hour dt -> get_time_period dt' = get_time_period dt).
Proof.
  rewrite (get_time_period_hour dt (hour dt) eq_refl).
  repeat split.
  - unfold periods. hour_cases (hour dt); simpl; tauto.
  - intros H. hour_cases (hour dt).
  - intros H. hour_cases (hour dt).
  - intros H. hour_cases (hour dt).
  - intros H. hour_cases (hour dt).
  - intros H. hour_cases (hour dt).
  - intros dt' E. rewrite (get_time_period_hour dt' (hour dt) E). reflexivity.
Qed.

(** The boundary scenarios listed with the property. *)
Example get_time_period_scenarios :
  map (fun h => get_time_period
                  {| year := 2024; month := 5; day := 17;
                     hour := h; minute := 30; second := 0; microsecond := 0 |})
      [0; 1; 4; 5; 11; 12; 16; 17; 19; 20; 23]
  = ["overnight"; "early morning"; "early morning"; "morning"; "morning";
     "afternoon"; "afternoon"; "evening"; "evening"; "overnight"; "overnight"].
Proof. reflexivity. Qed.

(** ** [chunk_list] *)

Lemma chunk_loop_nil {A} (size : nat) : chunk_loop (@nil A) size = [].
Proof. destruct size; simp chunk_loop; reflexivity. Qed.

Lemma chunk_loop_zero {A} (it : list A) : chunk_loop it 0 = [].
Proof. simp chunk_loop. reflexivity. Qed.

Lemma chunk_loop_cons {A} (x : A) (it : list A) (n : nat) :
  chunk_loop (x :: it) (S n) = (x :: firstn n it) :: chunk_loop (skipn n it) (S n).
Proof. rewrite chunk_loop_equation_1 at 1. reflexivity. Qed.

Lemma chunk_loop_partition {A} (n : nat) (it : list A) :
  List.concat (chunk_loop it (S n)) = it /\ full_but_last (S n) (chunk_loop it (S n)).
Proof.
  remember (List.length it) as m eqn:Hm.
  revert it Hm. induction m as [m IH] using lt_wf_ind. intros it Hm.
  destruct it as [|x it].
  - rewrite chunk_loop_nil. simpl. auto.
  - rewrite chunk_loop_cons.
    assert (Hlen : (List.length (skipn n it) < m)%nat).
    { subst m. rewrite List.length_skipn. simpl. lia. }
    destruct (IH _ Hlen (skipn n it) eq_refl) as [Hc Hf].
    split.
    + simpl. rewrite Hc. rewrite firstn_skipn. reflexivity.
    + destruct (skipn n it) as [|y rest] eqn:Hs.
      * rewrite chunk_loop_nil. simpl.
        pose proof (firstn_le_length n it). lia.
      * rewrite chunk_loop_cons in *.
        assert (Hn : (n < List.length it)%nat).
        { destruct (Nat.lt_ge_cases n (List.length it)) as [|Hge]; [assumption|].
          rewrite (skipn_all2 it Hge) in Hs. discriminate. }
        split; [|exact Hf].
        simpl. rewrite List.length_firstn. lia.
Qed.

Lemma chunk_list_in_range {A} (it : list A) (size : Z) :
  0 <= size <= sys_maxsize ->
  chunk_list it size = Ok (chunk_loop it (Z.to_nat size)).
Proof.
  intros [Hlo Hhi]. unfold chunk_list.
  destruct (Z.ltb_spec size 0) as [|_]; [lia|].
  destruct (Z.ltb_spec sys_maxsize size) as [|_]; [lia|].
  reflexivity.
Qed.

(** C8, as amended.  For every list and every size with
    [0 < size <= sys.maxsize], [chunk_list] returns (without raising)
    tuples that concatenate to the list, each of exactly [size] items
    except that the final one may be shorter;
    [chunk_list([1,2,3,4,5], 2) == [(1,2),(3,4),(5,)]] and
    [chunk_list([], 3) == []]. *)
Theorem chunk_list_partition :
  (forall (A : Type) (it : list A) (size : Z),
      0 < size <= sys_maxsize ->
      exists chunks,
        chunk_list it size = Ok chunks /\
        List.concat chunks = it /\
        full_but_last (Z.to_nat size) chunks) /\
  chunk_list [1; 2; 3; 4; 5] 2 = Ok [[1; 2]; [3; 4]; [5]] /\
  chunk_list (@nil Z) 3 = Ok [].
Proof.
  split; [|split].
  - intros A it size Hsize. rewrite chunk_list_in_range by lia.
    destruct (Z.to_nat size) as [|n] eqn:Hn; [lia|].
    exists (chunk_loop it (S n)).
    destruct (chunk_loop_partition n it) as [Hc Hf]. auto.
  - reflexivity.
  - reflexivity.
Qed.

Lemma chunk_list_partition_witness :
  0 < 2 <= sys_maxsize /\
  exists chunks,
    chunk_list ["a"; "b"; "c"] 2 = Ok chunks /\
    List.concat chunks = ["a"; "b"; "c"] /\
    full_but_last (Z.to_nat 2) chunks.
Proof.
  assert (H : 0 < 2 <= sys_maxsize) by (split; [reflexivity | discriminate]).
  split; [exact H|]. apply (proj1 chunk_list_partition). exact H.
Defined.

(** C8, as stated, fails: a size above [sys.maxsize] is positive, and
    [islice] refuses it with [ValueError]. *)
Lemma chunk_list_size_above_maxsize :
  0 < sys_maxsize + 1 /\
  chunk_list [1; 2; 3; 4; 5] (sys_maxsize + 1) = Raise ValueError.
Proof. split; reflexivity. Qed.


(** ** The monad *)

Lemma bind_Ok_inv {A B} (m : M A) (k : A -> M B) (s s' : state) (b : B) :
  bind m k s = (Ok b, s') ->
  exists a s1, m s = (Ok a, s1) /\ k a s1 = (Ok b, s').
Proof.
  unfold bind. destruct (m s) as [[a|e] s1]; intros H.
  - exists a, s1. auto.
  - discriminate.
Qed.

Lemma lift_inv {A} (r r' : result A) (s s' : state) :
  lift r s = (r', s') -> r = r' /\ s' = s.
Proof. unfold lift. intros H. inversion H. auto. Qed.

Lemma ret_inv {A} (a : A) (r : result A) (s s' : state) :
  ret a s = (r, s') -> r = Ok a /\ s' = s.
Proof. unfold ret. intros H. inversion H. auto. Qed.

Lemma rbind_Ok_inv {A B} (r : result A) (k : A -> result B) (b : B) :
  rbind r k = Ok b -> exists a, r = Ok a /\ k a = Ok b.
Proof. destruct r as [a|e]; simpl; intros H; [eauto | discriminate]. Qed.

Lemma keeps_state_lift {A} (r : result A) : keeps_state (lift r).
Proof. intros s. reflexivity. Qed.

Lemma keeps_state_ret {A} (a : A) : keeps_state (ret a).
Proof. intros s. reflexivity. Qed.

Lemma keeps_state_raise {A} (e : exn) : keeps_state (@raise A e).
Proof. intros s. reflexivity. Qed.

Lemma keeps_state_bind {A B} (m : M A) (k : A -> M B) :
  keeps_state m -> (forall a, keeps_state (k a)) -> keeps_state (bind m k).
Proof.
  intros Hm Hk s. unfold bind. specialize (Hm s).
  destruct (m s) as [[a|e] s1]; simpl in Hm; subst s1.
  - apply Hk.
  - reflexivity.
Qed.

Lemma keeps_state_if {A} (b : bool) (m1 m2 : M A) :
  keeps_state m1 -> keeps_state m2 -> keeps_state (if b then m1 else m2).
Proof. destruct b; auto. Qed.

Create HintDb keeps discriminated.
#[local] Hint Resolve keeps_state_lift keeps_state_ret keeps_state_raise : keeps.
#[local] Hint Extern 2 (keeps_state (bind _ _)) =>
  apply keeps_state_bind; [ | intros ? ] : keeps.
#[local] Hint Extern 2 (keeps_state (if _ then _ else _)) =>
  apply keeps_state_if : keeps.
#[local] Hint Extern 2 (keeps_state (let '(_, _) := ?p in _)) => destruct p : keeps.

Lemma keeps_state__get_lat_lon (env : Env) (kwargs : list (string * value)) :
  keeps_state (_get_lat_lon env kwargs).
Proof. unfold _get_lat_lon. auto 20 with keeps. Qed.
#[local] Hint Resolve keeps_state__get_lat_lon : keeps.

Lemma keeps_state__get_timezone (env : Env) (kwargs : list (string * value)) :
  keeps_state (_get_timezone env kwargs).
Proof.
  unfold _get_timezone. destruct (TimezoneFinder env); auto 20 with keeps.
Qed.
#[local] Hint Resolve keeps_state__get_timezone : keeps.

Lemma keeps_state_run {A} (m : M A) (s : state) :
  keeps_state m -> m s = (fst (m s), s).
Proof. intros H. specialize (H s). destruct (m s); simpl in *; subst; reflexivity. Qed.

(** ** The timezone fallback *)

(** C6, as amended.  When the offline timezone index is unavailable and
    the [location] section of the configuration is absent or a mapping,
    [_get_timezone] returns the configured timezone, or
    [{name: "UTC", code: "UTC"}] when none is configured; it does not
    raise and leaves the state untouched, so no request is sent. *)
Theorem timezone_fallback (env : Env) (kwargs : list (string * value)) (s : state) :
  TimezoneFinder env = None ->
  location_section_ok (Configuration env) = true ->
  _get_timezone env kwargs s =
    (Ok (match configured_timezone (Configuration env) with
         | Some tz => tz
         | None => UTC
         end), s).
Proof.
  intros Hfinder Hshape.
  unfold _get_timezone. rewrite Hfinder.
  unfold location_section_ok in Hshape.
  unfold configured_timezone, bind, lift, get_default, get, or_else, rbind.
  cbn [field].
  destruct (lookup "location" (Configuration env)) as [[| | | | | |section]|];
    try discriminate; cbn.
  - destruct (lookup "timezone" section) as [tz|]; cbn.
    + destruct (truthy tz); reflexivity.
    + reflexivity.
  - reflexivity.
Qed.

Lemma timezone_fallback_witness :
  TimezoneFinder porto_env = None /\
  location_section_ok (Configuration porto_env) = true /\
  _get_timezone porto_env [("lon", VNone); ("lat", VNone)] (initial_state 0) =
    (Ok (VDict [("name", VStr "Europe Lisbon"); ("code", VStr "Europe/Lisbon")]),
     initial_state 0).
Proof.
  split; [reflexivity|]. split; [reflexivity|].
  exact (timezone_fallback porto_env [("lon", VNone); ("lat", VNone)] (initial_state 0)
           eq_refl eq_refl).
Defined.

(** Without a [location] section the fallback is UTC. *)
Example timezone_fallback_utc :
  _get_timezone
    {| http := fun _ _ => None; Configuration := [("lang", VStr "en-us")];
       TimezoneFinder := None; float_of_str := fun _ => None;
       float_of_int := fun _ => None |} [] (initial_state 0)
  = (Ok UTC, initial_state 0).
Proof. reflexivity. Qed.

(** C6, as stated, fails: with the index unavailable and a [location]
    section that is present but not a mapping (here [null]), the default
    of [.get("location", {})] is not used, [.get("timezone")] is called
    on [None], and the fallback raises [AttributeError]. *)
Example timezone_fallback_malformed_config :
  _get_timezone
    {| http := fun _ _ => None; Configuration := [("location", VNone)];
       TimezoneFinder := None; float_of_str := fun _ => None;
       float_of_int := fun _ => None |} [] (initial_state 0)
  = (Raise AttributeError, initial_state 0).
Proof. reflexivity. Qed.

(** ** Field fallback chains *)

Lemma get_chain (d : list (string * value)) (keys : list string) :
  fold_right (fun k rest => get (VDict d) k or rest) (Ok (VStr "")) keys
  = Ok (first_nonempty (map (fun k => lookup k d) keys)).
Proof.
  induction keys as [|k keys IH]; [reflexivity|].
  cbn [fold_right map first_nonempty]. rewrite IH.
  unfold or_else, get, get_default, rbind.
  destruct (lookup k d) as [v|]; [|reflexivity].
  destruct (truthy v); reflexivity.
Qed.

Lemma get_Ok_inv (v x : value) (k : string) :
  get v k = Ok x -> exists d, v = VDict d /\ x = get_or_none d k.
Proof.
  destruct v; try discriminate. unfold get, get_default, get_or_none.
  intros H. inversion H. eauto.
Qed.

Lemma or_else_Ok_inv (a b : result value) (x : value) :
  (a or b) = Ok x ->
  exists y, a = Ok y /\ (if truthy y then x = y else b = Ok x).
Proof.
  unfold or_else. intros H. apply rbind_Ok_inv in H. destruct H as (y & Ha & H).
  exists y. split; [assumption|]. destruct (truthy y); congruence.
Qed.

Lemma requests_get_json_Ok_inv (env : Env) (u : string) (ps : list (string * value))
    (hs : list (string * string)) (s s' : state) (body : value) :
  requests_get_json env u ps hs s = (Ok body, s') ->
  http env (trace s) {| url := u; params := ps; headers := hs |} = Some body /\
  s' = set_trace (trace s ++ [{| url := u; params := ps; headers := hs |}]) s.
Proof.
  unfold requests_get_json. intros H.
  destruct (http env (trace s) _) as [b|]; inversion H; auto.
Qed.

(** One step through a sequence of statements that ran to completion. *)
Ltac step H x Hx :=
  apply bind_Ok_inv in H;
  let s1 := fresh "s" in
  destruct H as (x & s1 & Hx & H);
  lazymatch type of Hx with
  | lift _ _ = _ => apply lift_inv in Hx; destruct Hx as [Hx ?]; subst s1
  | _ => idtac
  end.

Lemma field_one (d : list (string * value)) (k : string) :
  field (VDict d) [k] = lookup k d.
Proof. cbn [field]. destruct (lookup k d); reflexivity. Qed.

Lemma field_cons (d : list (string * value)) (k : string) (x : value) (path : list string) :
  lookup k d = Some x -> field (VDict d) (k :: path) = field x path.
Proof. intros H. cbn [field]. rewrite H. reflexivity. Qed.

Lemma get_or_none_dict (d d' : list (string * value)) (k : string) :
  get_or_none d k = VDict d' -> lookup k d = Some (VDict d').
Proof. unfold get_or_none. destruct (lookup k d); [congruence | discriminate]. Qed.

(** ** The reverse-geocode path *)

(** What a completed run of the body of [get_reverse_geolocation] did:
    one request, whose answer [details] has an [address] object [a]; the
    record is laid out from them and completed with the timezone. *)
Lemma reverse_body_inv (env : Env) (lat lon loc : value) (s s' : state) :
  get_reverse_geolocation_body env (lat, lon) s = (Ok loc, s') ->
  exists dd a display_name city_code city_name state_code state_name
         country_code country_name latitude longitude tz,
    http env (trace s) (reverse_request lat lon) = Some (VDict dd) /\
    s' = set_trace (trace s ++ [reverse_request lat lon]) s /\
    lookup "address" dd = Some (VDict a) /\
    (get (VDict a) "city" or get (VDict a) "village" or get (VDict a) "town" or
     get (VDict a) "hamlet" or get (VDict a) "county" or Ok (VStr "")) = Ok city_name /\
    (get (VDict dd) "lat" or Ok lat) = Ok latitude /\
    (get (VDict dd) "lon" or Ok lon) = Ok longitude /\
    _get_timezone env [("lat", latitude); ("lon", longitude)] s' = (Ok tz, s') /\
    loc = location_record display_name city_code city_name state_code state_name
            country_code country_name latitude longitude tz.
Proof.
  intros H. unfold get_reverse_geolocation_body in H.
  step H details Hreq.
  apply requests_get_json_Ok_inv in Hreq. destruct Hreq as [Hreq ->].
  step H address Haddr.
  step H display_name Hdn.
  step H city_code Hcc.
  step H city_name Hcn.
  step H state_code Hsc.
  step H state_name Hsn.
  step H country_code Hcoc.
  step H country_name Hcon.
  step H latitude Hlat.
  step H longitude Hlon.
  change (contains "timezone" _) with false in H. cbn [negb] in H.
  step H tz_lat Htlat.
  step H tz_lon Htlon.
  step H tz Htz.
  apply ret_inv in H. destruct H as [H ->].
  rewrite Htlat in Hlat. rewrite Htlon in Hlon.
  inversion Hlat; subst tz_lat. inversion Hlon; subst tz_lon. clear Hlat Hlon.
  pose proof (keeps_state_run _ (set_trace (trace s ++ [reverse_request lat lon]) s)
                (keeps_state__get_timezone env [("lat", latitude); ("lon", longitude)]))
    as Hk.
  fold (reverse_request lat lon) in Hreq, Htz |- *.
  rewrite Hk in Htz. inversion Htz as [[Hfst Hs]].
  rewrite <- Hs in *. clear Hs.
  destruct (get_Ok_inv _ _ _ Haddr) as (dd & -> & Ha).
  apply or_else_Ok_inv in Hcc. destruct Hcc as (y & Hy & _).
  destruct (get_Ok_inv _ _ _ Hy) as (a & -> & _).
  symmetry in Ha. apply get_or_none_dict in Ha.
  exists dd, a, display_name, city_code, city_name, state_code, state_name,
    country_code, country_name, latitude, longitude, tz.
  repeat split; try assumption.
  - rewrite Hk. rewrite Hfst. reflexivity.
  - inversion H. reflexivity.
Qed.

(** C4.  For every reverse-geocode response from which a record is
    built, the record's [city.name] is the first non-empty of the address
    fields city, village, town, hamlet, county, and the empty string when
    none of them is; in particular an address with county "X" and none of
    city, village, town, hamlet gives [city.name == "X"]. *)
Theorem reverse_city_name (env : Env) (lat lon details loc : value) (s s' : state) :
  http env (trace s) (reverse_request lat lon) = Some details ->
  get_reverse_geolocation_body env (lat, lon) s = (Ok loc, s') ->
  field loc ["city"; "name"] =
    Some (first_nonempty [field details ["address"; "city"];
                          field details ["address"; "village"];
                          field details ["address"; "town"];
                          field details ["address"; "hamlet"];
                          field details ["address"; "county"]]) /\
  (forall X : string,
      field details ["address"; "city"] = None ->
      field details ["address"; "village"] = None ->
      field details ["address"; "town"] = None ->
      field details ["address"; "hamlet"] = None ->
      field details ["address"; "county"] = Some (VStr X) ->
      field loc ["city"; "name"] = Some (VStr X)).
Proof.
  intros Hhttp H.
  apply reverse_body_inv in H.
  destruct H as (dd & a & display_name & city_code & city_name & state_code & state_name
                 & country_code & country_name & latitude & longitude & tz
                 & Hreq & _ & Ha & Hcn & _ & _ & _ & ->).
  rewrite Hhttp in Hreq. inversion Hreq; subst details. clear Hreq.
  pose proof (get_chain a ["city"; "village"; "town"; "hamlet"; "county"]) as G.
  cbn [fold_right map] in G. rewrite G in Hcn. inversion Hcn as [Hname]. clear Hcn G.
  rewrite !(field_cons dd "address" (VDict a) _ Ha), !field_one.
  split; [reflexivity|].
  intros X -> -> -> -> ->. cbn [first_nonempty].
  destruct X; reflexivity.
Qed.

Lemma reverse_city_name_witness :
  exists loc s',
    http county_env (trace (initial_state 0))
      (reverse_request (VFloat 52.25%float) (VFloat (-9.75)%float)) = Some county_reverse /\
    get_reverse_geolocation_body county_env
      (VFloat 52.25%float, VFloat (-9.75)%float) (initial_state 0) = (Ok loc, s') /\
    field loc ["city"; "name"] = Some (VStr "Kerry").
Proof.
  eexists. eexists.
  split; [reflexivity|]. split; [reflexivity|].
  refine (proj2 (reverse_city_name county_env (VFloat 52.25%float) (VFloat (-9.75)%float)
                   county_reverse _ (initial_state 0) _ eq_refl eq_refl)
                "Kerry" eq_refl eq_refl eq_refl eq_refl eq_refl).
Defined.

(** ** Running a sequence of statements *)

Lemma bind_run {A B} (m : M A) (k : A -> M B) (s s1 : state) (a : A) :
  m s = (Ok a, s1) -> bind m k s = k a s1.
Proof. intros H. unfold bind. rewrite H. reflexivity. Qed.

Lemma bind_run_raise {A B} (m : M A) (k : A -> M B) (s s1 : state) (e : exn) :
  m s = (Raise e, s1) -> bind m k s = (Raise e, s1).
Proof. intros H. unfold bind. rewrite H. reflexivity. Qed.

Lemma bind_lift {A B} (r : result A) (k : A -> M B) (s : state) :
  bind (lift r) k s = match r with Ok a => k a s | Raise e => (Raise e, s) end.
Proof. destruct r; reflexivity. Qed.

Lemma snd_bind_keeps {A B} (m : M A) (k : A -> M B) (s : state) :
  (forall a, keeps_state (k a)) -> snd (bind m k s) = snd (m s).
Proof.
  intros Hk. unfold bind. destruct (m s) as [[a|e] s1]; [apply Hk | reflexivity].
Qed.

Lemma requests_get_json_state (env : Env) (u : string) (ps : list (string * value))
    (hs : list (string * string)) (s : state) :
  snd (requests_get_json env u ps hs s)
  = set_trace (trace s ++ [{| url := u; params := ps; headers := hs |}]) s.
Proof. reflexivity. Qed.

Lemma usable_coordinate_get (data : list (string * value)) :
  usable_coordinate (VDict data)
  = truthy (get_or_none data "lat") && truthy (get_or_none data "lon").
Proof.
  unfold usable_coordinate, get_or_none. rewrite !field_one.
  destruct (lookup "lat" data) as [lat|], (lookup "lon" data) as [lon|]; cbn;
    rewrite ?andb_false_r; reflexivity.
Qed.

(** For the strings the provider sends, truthy means non-empty. *)
Lemma truthy_string (x : string) : truthy (VStr x) = true <-> x <> "".
Proof.
  cbn. destruct (String.eqb_spec x ""); cbn; split; congruence.
Qed.

(** ** The body of [get_reverse_geolocation] sends exactly one request *)

Lemma reverse_body_state (env : Env) (lat lon : value) (s : state) :
  snd (get_reverse_geolocation_body env (lat, lon) s)
  = set_trace (trace s ++ [reverse_request lat lon]) s.
Proof.
  unfold get_reverse_geolocation_body.
  rewrite snd_bind_keeps; [reflexivity|].
  intros details. cbv zeta.
  change (contains "timezone" _) with false. cbn [negb].
  auto 30 with keeps.
Qed.

(** A call of the decorated function: served from the cache, or the body
    ran and its result was stored, or the body raised. *)
Lemma timed_lru_cache_cases {K} (key_eqb : K -> K -> bool) (seconds : Z)
    (sel : state -> cache K) (upd : cache K -> state -> state)
    (f : K -> M value) (k : K) (s : state) :
  (exists v t0,
      cache_lookup key_eqb k (sel s) = Some (v, t0) /\ clock s - t0 < seconds /\
      timed_lru_cache key_eqb seconds sel upd f k s = (Ok v, s)) \/
  (exists v s1,
      f k s = (Ok v, s1) /\
      timed_lru_cache key_eqb seconds sel upd f k s
      = (Ok v, upd (cache_store key_eqb k (v, clock s1) (sel s1)) s1)) \/
  (exists e s1,
      f k s = (Raise e, s1) /\
      timed_lru_cache key_eqb seconds sel upd f k s = (Raise e, s1)).
Proof.
  unfold timed_lru_cache.
  destruct (cache_lookup key_eqb k (sel s)) as [[v t0]|] eqn:Hl.
  - destruct (Z.ltb_spec (clock s - t0) seconds) as [Hlt|Hge].
    + left. exists v, t0. auto.
    + right. destruct (f k s) as [[v'|e] s1]; [left | right]; eauto.
  - right. destruct (f k s) as [[v'|e] s1]; [left | right]; eauto.
Qed.

Lemma reverse_trace (env : Env) (lat lon : value) (s : state) :
  trace (snd (get_reverse_geolocation env lat lon s)) = trace s \/
  trace (snd (get_reverse_geolocation env lat lon s))
  = (trace s ++ [reverse_request lat lon])%list.
Proof.
  unfold get_reverse_geolocation.
  pose proof (reverse_body_state env lat lon s) as Hb.
  destruct (timed_lru_cache_cases coord_eqb 600 rev_cache set_rev_cache
              (get_reverse_geolocation_body env) (lat, lon) s)
    as [(v & t0 & _ & _ & ->) | [(v & s1 & Hf & ->) | (e & s1 & Hf & ->)]].
  - left. reflexivity.
  - right. rewrite Hf in Hb. cbn in Hb. subst s1. reflexivity.
  - right. rewrite Hf in Hb. cbn in Hb. subst s1. reflexivity.
Qed.

(** ** The body of [_get_geolocation] *)

Lemma requests_get_json_run (env : Env) (u : string) (ps : list (string * value))
    (hs : list (string * string)) (s : state) (body : value) :
  http env (trace s) {| url := u; params := ps; headers := hs |} = Some body ->
  requests_get_json env u ps hs s
  = (Ok body, set_trace (trace s ++ [{| url := u; params := ps; headers := hs |}]) s).
Proof. intros H. unfold requests_get_json. rewrite H. reflexivity. Qed.

Lemma set_trace_twice (s : state) (a b : request) :
  set_trace (trace (set_trace (trace s ++ [a]) s) ++ [b]) (set_trace (trace s ++ [a]) s)
  = set_trace (trace s ++ [a; b]) s.
Proof. unfold set_trace. cbn. rewrite <- app_assoc. reflexivity. Qed.

(** Rewrites the body up to the test of the coordinate, once the forward
    search has answered with [results], whose first element is [data]. *)
Ltac run_to_dispatch Hhttp Hdata :=
  unfold _get_geolocation_body;
  rewrite (bind_run _ _ _ _ _ (requests_get_json_run _ _ _ _ _ _ Hhttp));
  rewrite bind_lift, Hdata;
  rewrite bind_lift;
  match goal with
  | |- context [get (VDict ?d) "lat"] =>
      change (get (VDict d) "lat") with (Ok (get_or_none d "lat"))
  end;
  cbv iota beta;
  rewrite bind_lift;
  match goal with
  | |- context [get (VDict ?d) "lon"] =>
      change (get (VDict d) "lon") with (Ok (get_or_none d "lon"))
  end;
  cbv iota beta;
  rewrite <- usable_coordinate_get.

(** With a usable coordinate the body continues as
    [get_reverse_geolocation(lat, lon)] and as nothing else. *)
Lemma geolocation_body_usable (env : Env) (location : string) (s : state)
    (data : list (string * value)) :
  forward_match env s location data ->
  usable_coordinate (VDict data) = true ->
  _get_geolocation_body env location s =
    get_reverse_geolocation env (get_or_none data "lat") (get_or_none data "lon")
      (set_trace (trace s ++ [search_request location]) s).
Proof.
  intros (results & Hhttp & Hdata) Hu.
  run_to_dispatch Hhttp Hdata. rewrite Hu. reflexivity.
Qed.

(** Without one, the only further request is the details lookup, sent
    when the match has the key for it; no cache is touched. *)
Lemma geolocation_body_details_state (env : Env) (location : string) (s : state)
    (data : list (string * value)) :
  forward_match env s location data ->
  usable_coordinate (VDict data) = false ->
  snd (_get_geolocation_body env location s) =
    match details_key data with
    | Ok (osmid, osmtype) =>
        set_trace (trace s ++ [search_request location; details_request osmid osmtype]) s
    | Raise _ => set_trace (trace s ++ [search_request location]) s
    end.
Proof.
  intros (results & Hhttp & Hdata) Hu.
  run_to_dispatch Hhttp Hdata. rewrite Hu.
  unfold details_key.
  rewrite bind_lift.
  destruct (getitem (VDict data) "osm_id") as [osmid|e]; cbn [rbind]; [|reflexivity].
  rewrite bind_lift.
  destruct (t <- getitem (VDict data) "osm_type" ;; c <- getitem0 t ;; upper c)
    as [osmtype|e]; cbn [rbind]; [|reflexivity].
  rewrite snd_bind_keeps.
  - rewrite requests_get_json_state. apply set_trace_twice.
  - intros details. cbv zeta.
    change (contains "timezone" _) with false. cbn [negb].
    auto 40 with keeps.
Qed.

(** What a completed run on the details path did. *)
Lemma details_body_inv (env : Env) (location : string) (s s' : state)
    (data : list (string * value)) (loc : value) :
  forward_match env s location data ->
  usable_coordinate (VDict data) = false ->
  _get_geolocation_body env location s = (Ok loc, s') ->
  exists osmid osmtype details tags cc address city_code city_name state_code state_name
         country_code country_name tz,
    details_key data = Ok (osmid, osmtype) /\
    http env (trace s ++ [search_request location]) (details_request osmid osmtype)
    = Some details /\
    s' = set_trace (trace s ++ [search_request location; details_request osmid osmtype]) s /\
    (get details "addresstags" or Ok (VDict [])) = Ok tags /\
    (getitem details "country_code" or
     get tags "country" or
     (x <- getitem details "extratags" ;; get x "ISO3166-1:alpha2") or
     Ok (VStr "")) = Ok cc /\
    upper cc = Ok country_code /\
    _get_timezone env [("lon", get_or_none data "lon"); ("lat", get_or_none data "lat")] s'
    = (Ok tz, s') /\
    loc = location_record address city_code city_name state_code state_name
            country_code country_name
            (get_or_none data "lat") (get_or_none data "lon") tz.
Proof.
  intros (results & Hhttp & Hdata) Hu H.
  revert H. run_to_dispatch Hhttp Hdata. rewrite Hu. intros H.
  step H osmid Hid.
  step H osmtype Hty.
  step H details Hreq.
  apply requests_get_json_Ok_inv in Hreq. destruct Hreq as [Hreq ->].
  rewrite set_trace_twice in H.
  step H tags Htags.
  step H place_type Hpt.
  step H name Hname.
  step H cc Hcc.
  step H address Haddr.
  step H city_code Hcode.
  cbv zeta in H.
  step H state_code Hsc.
  step H state_name Hsn.
  step H country_code Hcoc.
  cbv zeta in H.
  change (contains "timezone" _) with false in H. cbn [negb] in H.
  step H tz Htz.
  apply ret_inv in H. destruct H as [H ->].
  match type of Htz with
  | ?m ?st = _ =>
      pose proof (keeps_state_run m st (keeps_state__get_timezone _ _)) as Hk
  end.
  rewrite Hk in Htz. inversion Htz as [[Hfst Hs]]. rewrite <- Hs in *. clear Hs.
  exists osmid, osmtype, details, tags, cc, address, city_code,
    (if eq_str place_type "city" then name else VStr ""), state_code, state_name,
    country_code, (if eq_str place_type "country" then name else VStr ""), tz.
  repeat split; try assumption.
  - unfold details_key. rewrite Hid. cbn [rbind]. rewrite Hty. reflexivity.
  - etransitivity; [exact Hk|]. rewrite Hfst. reflexivity.
  - inversion H. reflexivity.
Qed.

(** ** Which lookup follows the forward search *)

(** C2.  Once the forward search has answered with a best match: if the
    match carries a usable coordinate, the rest of the resolution is the
    call [get_reverse_geolocation(lat, lon)] with exactly the match's
    [lat] and [lon], so that the only request that can follow is the
    reverse request for them and never a details request; if it does
    not, the reverse-geocode cache is left alone, no reverse request is
    sent, and the one request that follows (always, when the resolution
    returns a record) is the details lookup keyed by the match's [osm_id]
    and the upper-cased first letter of its [osm_type]. *)
Theorem coordinate_dispatch (env : Env) (location : string) (s : state)
    (data : list (string * value)) :
  forward_match env s location data ->
  let lat := get_or_none data "lat" in
  let lon := get_or_none data "lon" in
  let s1 := set_trace (trace s ++ [search_request location]) s in
  let out := _get_geolocation_body env location s in
  (usable_coordinate (VDict data) = true ->
   out = get_reverse_geolocation env lat lon s1 /\
   (trace (snd out) = trace s1 \/
    trace (snd out) = (trace s1 ++ [reverse_request lat lon])%list)) /\
  (usable_coordinate (VDict data) = false ->
   rev_cache (snd out) = rev_cache s /\
   (forall r, In r (trace (snd out)) -> url r = reverse_url -> In r (trace s)) /\
   (forall osmid osmtype,
       details_key data = Ok (osmid, osmtype) ->
       trace (snd out)
       = (trace s ++ [search_request location; details_request osmid osmtype])%list) /\
   (forall loc s',
       out = (Ok loc, s') ->
       exists osmid osmtype, details_key data = Ok (osmid, osmtype))).
Proof.
  intros Hfwd lat lon s1 out. split; intros Hu.
  - pose proof (geolocation_body_usable env location s data Hfwd Hu) as Heq.
    fold lat lon s1 out in Heq.
    split; [exact Heq|]. rewrite Heq. apply reverse_trace.
  - pose proof (geolocation_body_details_state env location s data Hfwd Hu) as Hst.
    fold out in Hst.
    repeat split.
    + rewrite Hst. destruct (details_key data) as [[osmid osmtype]|e]; reflexivity.
    + intros r Hin Hurl. rewrite Hst in Hin.
      destruct (details_key data) as [[osmid osmtype]|e]; cbn [trace set_trace] in Hin;
        apply in_app_or in Hin; destruct Hin as [Hin|Hin]; try assumption;
        cbn [In] in Hin; intuition (subst r; discriminate Hurl).
    + intros osmid osmtype Hkey. rewrite Hst, Hkey. reflexivity.
    + intros loc s' Hout.
      destruct (details_body_inv env location s s' data loc Hfwd Hu Hout)
        as (osmid & osmtype & _ & _ & _ & _ & _ & _ & _ & _ & _ & _ & _ & Hkey & _).
      eauto.
Qed.

Lemma coordinate_dispatch_witness :
  (_get_geolocation_body porto_env "Porto" (initial_state 0)
   = get_reverse_geolocation porto_env (VStr "41.1494512") (VStr "-8.6107884")
       (set_trace [search_request "Porto"] (initial_state 0))) /\
  (trace (snd (_get_geolocation_body olivenza_env "Olivenza" (initial_state 0)))
   = [search_request "Olivenza"; details_request (VInt 344884) (VStr "R")]).
Proof.
  split.
  - refine (proj1 (proj1 (coordinate_dispatch porto_env "Porto" (initial_state 0)
                            porto_match _) eq_refl)).
    exists (VList [VDict porto_match]). split; reflexivity.
  - refine (proj1 (proj2 (proj2 (proj2 (coordinate_dispatch olivenza_env "Olivenza"
                                          (initial_state 0) olivenza_match _) eq_refl)))
                  (VInt 344884) (VStr "R") eq_refl).
    exists (VList [VDict olivenza_match]). split; reflexivity.
Defined.

(** ** The details path *)

Lemma first_nonempty_step (o : option value) (y cc : value)
    (rest : list (option value)) :
  reads o y ->
  (if truthy y then cc = y else cc = first_nonempty rest) ->
  cc = first_nonempty (o :: rest).
Proof.
  unfold reads. intros Hr Hcc. cbn [first_nonempty].
  destruct o as [v|].
  - destruct (truthy v) eqn:Tv.
    + subst y. rewrite Tv in Hcc. exact Hcc.
    + rewrite Hr in Hcc. exact Hcc.
  - rewrite Hr in Hcc. exact Hcc.
Qed.

Lemma reads_lookup (d : list (string * value)) (k : string) :
  reads (lookup k d) (get_or_none d k).
Proof.
  unfold reads, get_or_none. destruct (lookup k d) as [v|]; [|reflexivity].
  destruct (truthy v) eqn:Tv; auto.
Qed.

Lemma falsy_field (x : value) (k : string) :
  truthy x = false -> field x [k] = None.
Proof.
  destruct x as [| | | | | |d]; try reflexivity.
  destruct d; [reflexivity | discriminate].
Qed.

(** The tags consulted for the country are the [addresstags] of the
    details when those are a non-empty object, and nothing otherwise. *)
Lemma reads_address_tag (dd t : list (string * value)) (k : string) :
  (get (VDict dd) "addresstags" or Ok (VDict [])) = Ok (VDict t) ->
  reads (field (VDict dd) ["addresstags"; k]) (get_or_none t k).
Proof.
  intros H. apply or_else_Ok_inv in H. destruct H as (x & Hx & H).
  apply get_Ok_inv in Hx. destruct Hx as (dd' & Hdd & ->). inversion Hdd; subst dd'.
  unfold get_or_none in H at 1 2.
  destruct (lookup "addresstags" dd) as [x|] eqn:Ea.
  - rewrite (field_cons dd "addresstags" x [k] Ea).
    destruct (truthy x) eqn:Tx.
    + inversion H; subst x. rewrite field_one. apply reads_lookup.
    + inversion H; subst t. rewrite (falsy_field x k Tx). reflexivity.
  - cbn [field]. rewrite Ea. cbn in H. inversion H; subst t. reflexivity.
Qed.

Lemma country_code_chain (details tags cc : value) :
  (get details "addresstags" or Ok (VDict [])) = Ok tags ->
  (getitem details "country_code" or
   get tags "country" or
   (x <- getitem details "extratags" ;; get x "ISO3166-1:alpha2") or
   Ok (VStr "")) = Ok cc ->
  cc = first_nonempty (country_code_candidates details).
Proof.
  intros Htags Hcc. unfold country_code_candidates.
  apply or_else_Ok_inv in Hcc. destruct Hcc as (y & Hy & Hcc).
  destruct details as [| | | | | |dd]; try discriminate Hy.
  unfold getitem in Hy.
  destruct (lookup "country_code" dd) as [v|] eqn:Ecc; [|discriminate Hy].
  inversion Hy; subst v. clear Hy.
  apply (first_nonempty_step _ y); [rewrite field_one, Ecc; cbn;
                                    destruct (truthy y); reflexivity|].
  destruct (truthy y); [exact Hcc|].
  apply or_else_Ok_inv in Hcc. destruct Hcc as (y2 & Hy2 & Hcc).
  apply get_Ok_inv in Hy2. destruct Hy2 as (t & -> & ->).
  apply (first_nonempty_step _ (get_or_none t "country"));
    [apply reads_address_tag; exact Htags|].
  destruct (truthy (get_or_none t "country")); [exact Hcc|].
  apply or_else_Ok_inv in Hcc. destruct Hcc as (y3 & Hy3 & Hcc).
  apply rbind_Ok_inv in Hy3. destruct Hy3 as (x & Hx & Hy3).
  unfold getitem in Hx.
  destruct (lookup "extratags" dd) as [x'|] eqn:Ee; [|discriminate Hx].
  inversion Hx; subst x'. clear Hx.
  apply get_Ok_inv in Hy3. destruct Hy3 as (e & -> & ->).
  apply (first_nonempty_step _ (get_or_none e "ISO3166-1:alpha2"));
    [rewrite (field_cons dd "extratags" (VDict e) _ Ee), field_one; apply reads_lookup|].
  destruct (truthy (get_or_none e "ISO3166-1:alpha2")); [exact Hcc|].
  cbn [first_nonempty]. congruence.
Qed.

Lemma details_path_inv (env : Env) (location : string) (s s' : state)
    (data : list (string * value)) (details loc : value) :
  details_path env s location data details ->
  _get_geolocation_body env location s = (Ok loc, s') ->
  exists tags cc address city_code city_name state_code state_name
         country_code country_name tz,
    (get details "addresstags" or Ok (VDict [])) = Ok tags /\
    (getitem details "country_code" or
     get tags "country" or
     (x <- getitem details "extratags" ;; get x "ISO3166-1:alpha2") or
     Ok (VStr "")) = Ok cc /\
    upper cc = Ok country_code /\
    _get_timezone env [("lon", get_or_none data "lon"); ("lat", get_or_none data "lat")] s'
    = (Ok tz, s') /\
    loc = location_record address city_code city_name state_code state_name
            country_code country_name
            (get_or_none data "lat") (get_or_none data "lon") tz.
Proof.
  intros (Hfwd & Hu & osmid & osmtype & Hkey & Hhttp) H.
  destruct (details_body_inv env location s s' data loc Hfwd Hu H)
    as (osmid' & osmtype' & details' & tags & cc & address & city_code & city_name
        & state_code & state_name & country_code & country_name & tz
        & Hkey' & Hhttp' & _ & Htags & Hcc & Hup & Htz & Hloc).
  rewrite Hkey in Hkey'. inversion Hkey'; subst osmid' osmtype'.
  rewrite Hhttp in Hhttp'. inversion Hhttp'; subst details'.
  exists tags, cc, address, city_code, city_name, state_code, state_name,
    country_code, country_name, tz.
  auto.
Qed.

(** C3, as amended.  On the details path the country code of the
    returned record is the first non-empty of the details' country_code,
    then the address tags' country, then the ISO3166-1:alpha2 extra tag,
    in upper case (the empty string when none of them is non-empty). *)
Theorem details_country_code (env : Env) (location : string) (s s' : state)
    (data : list (string * value)) (details loc : value) :
  details_path env s location data details ->
  _get_geolocation_body env location s = (Ok loc, s') ->
  exists cc : string,
    first_nonempty (country_code_candidates details) = VStr cc /\
    field loc ["city"; "state"; "country"; "code"] = Some (VStr (upper_string cc)).
Proof.
  intros Hpath H.
  destruct (details_path_inv env location s s' data details loc Hpath H)
    as (tags & cc & address & city_code & city_name & state_code & state_name
        & country_code & country_name & tz & Htags & Hcc & Hup & _ & ->).
  rewrite <- (country_code_chain details tags cc Htags Hcc).
  destruct cc as [| | | |c| |]; try discriminate Hup.
  exists c. split; [reflexivity|].
  cbn in Hup. inversion Hup. reflexivity.
Qed.

Lemma olivenza_details_path :
  details_path olivenza_env (initial_state 0) "Olivenza" olivenza_match olivenza_details.
Proof.
  split; [|split].
  - exists (VList [VDict olivenza_match]). split; reflexivity.
  - reflexivity.
  - exists (VInt 344884), (VStr "R"). split; reflexivity.
Defined.

Lemma details_country_code_witness :
  exists loc s' cc,
    _get_geolocation_body olivenza_env "Olivenza" (initial_state 0) = (Ok loc, s') /\
    first_nonempty (country_code_candidates olivenza_details) = VStr cc /\
    field loc ["city"; "state"; "country"; "code"] = Some (VStr (upper_string cc)).
Proof.
  destruct (details_country_code olivenza_env "Olivenza" (initial_state 0) _
              olivenza_match olivenza_details _ olivenza_details_path eq_refl)
    as (cc & Hcc & Hfield).
  eexists. eexists. exists cc. split; [reflexivity|]. split; assumption.
Defined.

(** C3, as stated, fails: with country_code "es" and an address tag
    country "pt" the specification's order selects "pt" and so the code
    "PT", while the record carries "ES". *)
Lemma country_code_spec_order_fails :
  exists loc s',
    details_path olivenza_env (initial_state 0) "Olivenza" olivenza_match olivenza_details /\
    _get_geolocation_body olivenza_env "Olivenza" (initial_state 0) = (Ok loc, s') /\
    first_nonempty (spec_country_code_candidates olivenza_details) = VStr "pt" /\
    field loc ["city"; "state"; "country"; "code"] = Some (VStr "ES") /\
    field loc ["city"; "state"; "country"; "code"] <> Some (VStr (upper_string "pt")).
Proof.
  eexists. eexists.
  split; [exact olivenza_details_path|].
  split; [reflexivity|].
  split; [reflexivity|].
  split; [reflexivity|].
  discriminate.
Qed.

(** C10, as amended.  On the details path the coordinate of the
    returned record is the forward match's [lat] and [lon] as they were
    read, a pair that failed the test [lat and lon], so that at least one
    of the two is absent or falsy (the other may be a non-empty value);
    nothing of the details response enters it, and the timezone of the
    record is the one computed from that same pair. *)
Theorem details_coordinate (env : Env) (location : string) (s s' : state)
    (data : list (string * value)) (details loc : value) :
  details_path env s location data details ->
  _get_geolocation_body env location s = (Ok loc, s') ->
  let lat := get_or_none data "lat" in
  let lon := get_or_none data "lon" in
  field loc ["coordinate"; "latitude"] = Some lat /\
  field loc ["coordinate"; "longitude"] = Some lon /\
  truthy lat && truthy lon = false /\
  exists tz,
    _get_timezone env [("lon", lon); ("lat", lat)] s' = (Ok tz, s') /\
    field loc ["timezone"] = Some tz.
Proof.
  intros Hpath H lat lon.
  destruct (details_path_inv env location s s' data details loc Hpath H)
    as (tags & cc & address & city_code & city_name & state_code & state_name
        & country_code & country_name & tz & _ & _ & _ & Htz & ->).
  destruct Hpath as (_ & Hu & _). rewrite usable_coordinate_get in Hu.
  repeat split; try reflexivity; try assumption.
  exists tz. split; [exact Htz | reflexivity].
Qed.

(** With the index installed, the falsy pair makes [_get_lat_lon] fall
    back to the configured coordinate, so the record gets the zone of
    the device (9.125 degrees west), not that of the place. *)
Example details_timezone_from_configuration :
  rbind (fst (_get_geolocation_body olivenza_env_with_index "Olivenza" (initial_state 0)))
        (fun loc => Ok (field loc ["timezone"]))
  = Ok (Some (VDict [("name", VStr "Europe Lisbon"); ("code", VStr "Europe/Lisbon")])).
Proof. reflexivity. Qed.

Lemma half_details_path :
  details_path half_env (initial_state 0) "Somewhere" half_match olivenza_details.
Proof.
  split; [|split].
  - exists (VList [VDict half_match]). split; reflexivity.
  - reflexivity.
  - exists (VInt 42), (VStr "N"). split; reflexivity.
Defined.

(** C10, as stated, fails: a match with an empty [lat] and the [lon]
    "-50" takes the details path, and the record carries, and the
    timezone lookup receives, the non-empty longitude "-50": the recorded
    values are not all absent or falsy. *)
Lemma details_coordinate_not_all_falsy :
  exists loc s' tz,
    details_path half_env (initial_state 0) "Somewhere" half_match olivenza_details /\
    _get_geolocation_body half_env "Somewhere" (initial_state 0) = (Ok loc, s') /\
    field loc ["coordinate"; "latitude"] = Some (VStr "") /\
    field loc ["coordinate"; "longitude"] = Some (VStr "-50") /\
    truthy (VStr "-50") = true /\
    _get_timezone half_env [("lon", VStr "-50"); ("lat", VStr "")] s' = (Ok tz, s') /\
    field loc ["timezone"] = Some tz.
Proof.
  eexists. eexists. eexists.
  split; [exact half_details_path|].
  split; [reflexivity|].
  repeat split.
Qed.

Lemma details_coordinate_witness :
  exists loc s',
    _get_geolocation_body olivenza_env "Olivenza" (initial_state 0) = (Ok loc, s') /\
    field loc ["coordinate"; "latitude"] = Some VNone /\
    field loc ["coordinate"; "longitude"] = Some VNone.
Proof.
  eexists. eexists. split; [reflexivity|].
  pose proof (details_coordinate olivenza_env "Olivenza" (initial_state 0) _
                olivenza_match olivenza_details _ olivenza_details_path eq_refl) as H.
  cbv zeta in H. destruct H as (Hlat & Hlon & _). split; assumption.
Defined.

(** ** Every record carries a timezone *)

Lemma has_timezone_location_record (address city_code city_name state_code state_name
    country_code country_name latitude longitude tz : value) :
  has_timezone (location_record address city_code city_name state_code state_name
                  country_code country_name latitude longitude tz) = true.
Proof. reflexivity. Qed.

Lemma has_timezone_getitem (loc : value) :
  has_timezone loc = true <-> exists tz, getitem loc "timezone" = Ok tz.
Proof.
  unfold has_timezone. destruct loc as [| | | | | |d]; cbn; try (split; [discriminate|]);
    try (intros (tz & H); discriminate H).
  destruct (lookup "timezone" d) as [tz|]; split; eauto; try discriminate.
  intros (tz & H). discriminate H.
Qed.

Section CacheRecords.
Context {K : Type} (key_eqb : K -> K -> bool) (P : value -> Prop).

Lemma cache_lookup_records (k : K) (c : cache K) (v : value) (t : Z) :
  cache_lookup key_eqb k c = Some (v, t) ->
  Forall P (cache_records c) -> P v.
Proof.
  induction c as [|[k' e] c IH]; cbn; [discriminate|].
  intros H Hall. inversion Hall as [|? ? Hv Hc]; subst.
  destruct (key_eqb k k').
  - inversion H; subst e. exact Hv.
  - apply IH; assumption.
Qed.

Lemma cache_store_records (k : K) (c : cache K) (v : value) (t : Z) :
  P v -> Forall P (cache_records c) ->
  Forall P (cache_records (cache_store key_eqb k (v, t) c)).
Proof.
  intros Hv. induction c as [|[k' e] c IH]; cbn; intros Hall.
  - constructor; [exact Hv | constructor].
  - inversion Hall as [|? ? He Hc]; subst.
    destruct (key_eqb k k'); cbn; constructor; auto.
Qed.

End CacheRecords.

Lemma reverse_body_has_timezone (env : Env) (key : value * value) (loc : value)
    (s s' : state) :
  get_reverse_geolocation_body env key s = (Ok loc, s') -> has_timezone loc = true.
Proof.
  destruct key as [lat lon]. intros H. apply reverse_body_inv in H.
  destruct H as (dd & a & display_name & city_code & city_name & state_code & state_name
                 & country_code & country_name & latitude & longitude & tz
                 & _ & _ & _ & _ & _ & _ & _ & ->).
  reflexivity.
Qed.

Lemma reverse_keeps_timezones (env : Env) (lat lon : value) (s : state) :
  caches_have_timezone s ->
  caches_have_timezone (snd (get_reverse_geolocation env lat lon s)) /\
  (forall loc s', get_reverse_geolocation env lat lon s = (Ok loc, s') ->
                  has_timezone loc = true).
Proof.
  intros [Hgeo Hrev]. unfold get_reverse_geolocation.
  pose proof (reverse_body_state env lat lon s) as Hb.
  destruct (timed_lru_cache_cases coord_eqb 600 rev_cache set_rev_cache
              (get_reverse_geolocation_body env) (lat, lon) s)
    as [(v & t0 & Hl & _ & ->) | [(v & s1 & Hf & ->) | (e & s1 & Hf & ->)]].
  - split; [split; assumption|].
    intros loc s' H. inversion H; subst.
    exact (cache_lookup_records coord_eqb _ _ _ _ _ Hl Hrev).
  - pose proof (reverse_body_has_timezone env _ _ _ _ Hf) as Hv.
    rewrite Hf in Hb. cbn in Hb. subst s1.
    split.
    + split; cbn; [exact Hgeo|].
      apply cache_store_records; assumption.
    + intros loc s' H. inversion H; subst. exact Hv.
  - rewrite Hf in Hb. cbn in Hb. subst s1.
    split; [split; assumption | discriminate].
Qed.

(** [get_reverse_geolocation] leaves the other cache and the clock alone. *)
Lemma reverse_frame (env : Env) (lat lon : value) (s : state) :
  geo_cache (snd (get_reverse_geolocation env lat lon s)) = geo_cache s /\
  clock (snd (get_reverse_geolocation env lat lon s)) = clock s.
Proof.
  unfold get_reverse_geolocation.
  pose proof (reverse_body_state env lat lon s) as Hb.
  destruct (timed_lru_cache_cases coord_eqb 600 rev_cache set_rev_cache
              (get_reverse_geolocation_body env) (lat, lon) s)
    as [(v & t0 & _ & _ & ->) | [(v & s1 & Hf & ->) | (e & s1 & Hf & ->)]];
    try (split; reflexivity);
    rewrite Hf in Hb; cbn in Hb; subst s1; split; reflexivity.
Qed.

(** A body that returned a record had a best match to work on. *)
Lemma geolocation_body_forward (env : Env) (location : string) (s s' : state)
    (loc : value) :
  _get_geolocation_body env location s = (Ok loc, s') ->
  exists data, forward_match env s location data.
Proof.
  intros H. unfold _get_geolocation_body in H.
  step H results Hreq.
  apply requests_get_json_Ok_inv in Hreq. destruct Hreq as [Hreq ->].
  step H data Hdata.
  step H lat Hlat.
  apply get_Ok_inv in Hlat. destruct Hlat as (d & -> & _).
  exists d, results. auto.
Qed.

(** Whatever the outcome, the body changes the caches only through
    [get_reverse_geolocation]. *)
Lemma geolocation_body_state (env : Env) (location : string) (s : state) :
  let s1 := set_trace (trace s ++ [search_request location]) s in
  snd (_get_geolocation_body env location s) = s1 \/
  (exists osmid osmtype,
      snd (_get_geolocation_body env location s)
      = set_trace (trace s ++ [search_request location; details_request osmid osmtype]) s) \/
  (exists lat lon,
      _get_geolocation_body env location s = get_reverse_geolocation env lat lon s1).
Proof.
  intros s1.
  destruct (http env (trace s) (search_request location)) as [results|] eqn:Hhttp.
  - destruct (getitem0 results) as [data|e] eqn:Hdata.
    + destruct data as [| | | | | |d];
        try (left; unfold _get_geolocation_body;
             rewrite (bind_run _ _ _ _ _ (requests_get_json_run _ _ _ _ _ _ Hhttp));
             rewrite bind_lift, Hdata; reflexivity).
      assert (Hfwd : forward_match env s location d) by (exists results; auto).
      destruct (usable_coordinate (VDict d)) eqn:Hu.
      * right. right. eexists. eexists.
        apply (geolocation_body_usable env location s d Hfwd Hu).
      * rewrite (geolocation_body_details_state env location s d Hfwd Hu).
        destruct (details_key d) as [[osmid osmtype]|e]; [right; left; eauto | left; reflexivity].
    + left. unfold _get_geolocation_body.
      rewrite (bind_run _ _ _ _ _ (requests_get_json_run _ _ _ _ _ _ Hhttp)).
      rewrite bind_lift, Hdata. reflexivity.
  - left. unfold _get_geolocation_body, bind, requests_get_json.
    fold (search_request location). rewrite Hhttp. reflexivity.
Qed.

Lemma geolocation_body_keeps_timezones (env : Env) (location : string) (s : state) :
  caches_have_timezone s ->
  caches_have_timezone (snd (_get_geolocation_body env location s)) /\
  geo_cache (snd (_get_geolocation_body env location s)) = geo_cache s /\
  clock (snd (_get_geolocation_body env location s)) = clock s /\
  (forall loc s', _get_geolocation_body env location s = (Ok loc, s') ->
                  has_timezone loc = true).
Proof.
  intros Hinv.
  assert (Hloc : forall loc s',
             _get_geolocation_body env location s = (Ok loc, s') ->
             has_timezone loc = true).
  { intros loc s' H.
    destruct (geolocation_body_forward env location s s' loc H) as (data & Hfwd).
    destruct (usable_coordinate (VDict data)) eqn:Hu.
    - rewrite (geolocation_body_usable env location s data Hfwd Hu) in H.
      refine (proj2 (reverse_keeps_timezones env _ _ _ _) loc s' H).
      exact Hinv.
    - destruct (details_body_inv env location s s' data loc Hfwd Hu H)
        as (osmid & osmtype & details & tags & cc & address & city_code & city_name
            & state_code & state_name & country_code & country_name & tz
            & _ & _ & _ & _ & _ & _ & _ & ->).
      reflexivity. }
  destruct (geolocation_body_state env location s)
    as [-> | [(osmid & osmtype & ->) | (lat & lon & Heq)]].
  - repeat split; try exact Hloc; apply Hinv.
  - repeat split; try exact Hloc; apply Hinv.
  - rewrite Heq.
    assert (Hinv1 : caches_have_timezone
                      (set_trace (trace s ++ [search_request location]) s))
      by exact Hinv.
    destruct (reverse_keeps_timezones env lat lon _ Hinv1) as [Hinv' _].
    destruct (reverse_frame env lat lon
                (set_trace (trace s ++ [search_request location]) s)) as [Hg Hc].
    split; [exact Hinv'|]. split; [exact Hg|]. split; [exact Hc|].
    intros loc s' H. apply (Hloc loc s'). rewrite Heq. exact H.
Qed.

Lemma geolocation_keeps_timezones (env : Env) (location : string) (s : state) :
  caches_have_timezone s ->
  caches_have_timezone (snd (_get_geolocation env location s)) /\
  (forall loc s', _get_geolocation env location s = (Ok loc, s') ->
                  has_timezone loc = true).
Proof.
  intros Hinv.
  destruct (geolocation_body_keeps_timezones env location s Hinv)
    as (Hinv' & _ & _ & Hloc).
  unfold _get_geolocation.
  destruct (timed_lru_cache_cases String.eqb 600 geo_cache set_geo_cache
              (_get_geolocation_body env) location s)
    as [(v & t0 & Hl & _ & ->) | [(v & s1 & Hf & ->) | (e & s1 & Hf & ->)]].
  - split; [exact Hinv|].
    intros loc s' H. inversion H; subst.
    exact (cache_lookup_records String.eqb _ _ _ _ _ Hl (proj1 Hinv)).
  - rewrite Hf in Hinv'. cbn in Hinv'. destruct Hinv' as [Hgeo Hrev].
    pose proof (Hloc v s1 Hf) as Hv.
    split.
    + split; cbn; [|exact Hrev]. apply cache_store_records; assumption.
    + intros loc s' H. inversion H; subst. exact Hv.
  - rewrite Hf in Hinv'. split; [exact Hinv' | discriminate].
Qed.

(** After [_get_geolocation] has returned, the facade only reads. *)
Lemma get_geolocation_state (env : Env) (location : string) (s : state) :
  snd (get_geolocation env location s) = snd (_get_geolocation env location s).
Proof.
  unfold get_geolocation. apply snd_bind_keeps.
  intros geolocation. destruct geolocation; auto 20 with keeps.
Qed.

Lemma reachable_caches_have_timezone (env : Env) (s : state) :
  reachable env s -> caches_have_timezone s.
Proof.
  induction 1 as [t0 | s dt _ IH _ | s location _ IH | s location _ IH | s lat lon _ IH].
  - split; constructor.
  - exact IH.
  - rewrite get_geolocation_state. apply geolocation_keeps_timezones, IH.
  - apply geolocation_keeps_timezones, IH.
  - apply reverse_keeps_timezones, IH.
Qed.

(** Any property that holds of the records the two bodies build, with
    the timezone [_get_timezone] returned, holds of every record the
    decorated functions return, fresh or cached. *)
Section RecordInvariant.
Variable env : Env.
Variable P : value -> Prop.
Hypothesis P_record :
  forall a b c d e f g h i tz kwargs s,
    _get_timezone env kwargs s = (Ok tz, s) ->
    P (location_record a b c d e f g h i tz).

Let holds (s : state) : Prop :=
  Forall P (cache_records (geo_cache s)) /\ Forall P (cache_records (rev_cache s)).

Lemma reverse_keeps_records (lat lon : value) (s : state) :
  holds s ->
  holds (snd (get_reverse_geolocation env lat lon s)) /\
  (forall loc s', get_reverse_geolocation env lat lon s = (Ok loc, s') -> P loc).
Proof.
  intros [Hgeo Hrev]. unfold get_reverse_geolocation.
  pose proof (reverse_body_state env lat lon s) as Hb.
  destruct (timed_lru_cache_cases coord_eqb 600 rev_cache set_rev_cache
              (get_reverse_geolocation_body env) (lat, lon) s)
    as [(v & t0 & Hl & _ & ->) | [(v & s1 & Hf & ->) | (e & s1 & Hf & ->)]].
  - split; [split; assumption|].
    intros loc s' H. inversion H; subst.
    exact (cache_lookup_records coord_eqb P _ _ _ _ Hl Hrev).
  - assert (Hv : P v).
    { apply reverse_body_inv in Hf.
      destruct Hf as (dd & a & display_name & city_code & city_name & state_code
                      & state_name & country_code & country_name & latitude & longitude
                      & tz & _ & _ & _ & _ & _ & _ & Htz & ->).
      exact (P_record _ _ _ _ _ _ _ _ _ _ _ _ Htz). }
    rewrite Hf in Hb. cbn in Hb. subst s1.
    split.
    + split; cbn; [exact Hgeo|]. apply cache_store_records; assumption.
    + intros loc s' H. inversion H; subst. exact Hv.
  - rewrite Hf in Hb. cbn in Hb. subst s1.
    split; [split; assumption | discriminate].
Qed.

Lemma geolocation_keeps_records (location : string) (s : state) :
  holds s ->
  holds (snd (_get_geolocation env location s)) /\
  (forall loc s', _get_geolocation env location s = (Ok loc, s') -> P loc).
Proof.
  intros Hinv.
  assert (Hloc : forall loc s',
             _get_geolocation_body env location s = (Ok loc, s') -> P loc).
  { intros loc s' H.
    destruct (geolocation_body_forward env location s s' loc H) as (data & Hfwd).
    destruct (usable_coordinate (VDict data)) eqn:Hu.
    - rewrite (geolocation_body_usable env location s data Hfwd Hu) in H.
      exact (proj2 (reverse_keeps_records _ _
                      (set_trace (trace s ++ [search_request location]) s) Hinv)
               loc s' H).
    - destruct (details_body_inv env location s s' data loc Hfwd Hu H)
        as (osmid & osmtype & details & tags & cc & address & city_code & city_name
            & state_code & state_name & country_code & country_name & tz
            & _ & _ & _ & _ & _ & _ & Htz & ->).
      exact (P_record _ _ _ _ _ _ _ _ _ _ _ _ Htz). }
  assert (Hinv' : holds (snd (_get_geolocation_body env location s))).
  { destruct (geolocation_body_state env location s)
      as [-> | [(osmid & osmtype & ->) | (lat & lon & ->)]];
      [exact Hinv | exact Hinv |].
    exact (proj1 (reverse_keeps_records lat lon
                    (set_trace (trace s ++ [search_request location]) s) Hinv)). }
  unfold _get_geolocation.
  destruct (timed_lru_cache_cases String.eqb 600 geo_cache set_geo_cache
              (_get_geolocation_body env) location s)
    as [(v & t0 & Hl & _ & ->) | [(v & s1 & Hf & ->) | (e & s1 & Hf & ->)]].
  - split; [exact Hinv|].
    intros loc s' H. inversion H; subst.
    exact (cache_lookup_records String.eqb P _ _ _ _ Hl (proj1 Hinv)).
  - rewrite Hf in Hinv'. cbn in Hinv'. destruct Hinv' as [Hgeo Hrev].
    pose proof (Hloc v s1 Hf) as Hv.
    split.
    + split; cbn; [|exact Hrev]. apply cache_store_records; assumption.
    + intros loc s' H. inversion H; subst. exact Hv.
  - rewrite Hf in Hinv'. split; [exact Hinv' | discriminate].
Qed.

Lemma reachable_keeps_records (s : state) : reachable env s -> holds s.
Proof.
  induction 1 as [t0 | s dt _ IH _ | s location _ IH | s location _ IH | s lat lon _ IH].
  - split; constructor.
  - exact IH.
  - rewrite get_geolocation_state. apply geolocation_keeps_records, IH.
  - apply geolocation_keeps_records, IH.
  - apply reverse_keeps_records, IH.
Qed.

End RecordInvariant.

(** What [_get_timezone] returns has a code to read, provided that in
    the fallback the configured timezone has one. *)
Lemma get_timezone_code (env : Env) (kwargs : list (string * value)) (s s' : state)
    (tz : value) :
  fallback_has_code env ->
  _get_timezone env kwargs s = (Ok tz, s') ->
  exists code, getitem tz "code" = Ok code.
Proof.
  intros Hcode H. unfold _get_timezone in H. unfold fallback_has_code in Hcode.
  destruct (TimezoneFinder env) as [timezone_at|].
  - step H p Hll. destruct p as [lat lon].
    step H lng_f Hlng. step H lat_f Hlat. step H zone Hzone. step H name Hname.
    apply ret_inv in H. destruct H as [H _]. inversion H.
    exists zone. reflexivity.
  - specialize (Hcode eq_refl).
    step H cfg Hcfg.
    apply lift_inv in H. destruct H as [H _].
    unfold or_else in H. cbn [rbind] in H.
    destruct (truthy cfg) eqn:Tcfg; inversion H; subst tz; [|exists (VStr "UTC"); reflexivity].
    apply Hcode.
    apply rbind_Ok_inv in Hcfg. destruct Hcfg as (location & Hl & Hcfg).
    apply get_Ok_inv in Hcfg. destruct Hcfg as (l & -> & ->).
    unfold configured_timezone, get_default in *. cbn [field].
    inversion Hl as [Hloc]. clear Hl.
    destruct (lookup "location" (Configuration env)) as [x|].
    + subst x. unfold get_or_none in *.
      destruct (lookup "timezone" l) as [z|]; [rewrite Tcfg; reflexivity | discriminate Tcfg].
    + inversion Hloc; subst l. discriminate Tcfg.
Qed.

(** C9, as amended.  In every state the module can reach, a record
    returned by the resolution, fresh or cached and by whichever path,
    carries a timezone field, so that the facade's read of
    [geolocation["timezone"]] succeeds.  Both bodies lay the record out
    without the field: the guard fires and the field is what
    [_get_timezone] returned for the coordinate of the record (reverse
    path) or of the forward match (details path).  The facade's further
    read of [["code"]] succeeds whenever, in the fallback without the
    timezone index, the configured timezone has a code to read. *)
Theorem records_carry_timezone (env : Env) (s : state) :
  reachable env s ->
  (forall location loc s',
      _get_geolocation env location s = (Ok loc, s') ->
      has_timezone loc = true /\ exists tz, getitem loc "timezone" = Ok tz) /\
  (forall lat lon loc s',
      get_reverse_geolocation env lat lon s = (Ok loc, s') ->
      has_timezone loc = true) /\
  (forall lat lon loc s',
      get_reverse_geolocation_body env (lat, lon) s = (Ok loc, s') ->
      exists latitude longitude tz,
        field loc ["coordinate"; "latitude"] = Some latitude /\
        field loc ["coordinate"; "longitude"] = Some longitude /\
        _get_timezone env [("lat", latitude); ("lon", longitude)] s' = (Ok tz, s') /\
        field loc ["timezone"] = Some tz) /\
  (forall location data loc s',
      forward_match env s location data ->
      usable_coordinate (VDict data) = false ->
      _get_geolocation_body env location s = (Ok loc, s') ->
      exists tz,
        _get_timezone env [("lon", get_or_none data "lon"); ("lat", get_or_none data "lat")] s'
        = (Ok tz, s') /\
        field loc ["timezone"] = Some tz) /\
  (fallback_has_code env ->
   forall location loc s',
     _get_geolocation env location s = (Ok loc, s') ->
     timezone_with_code loc).
Proof.
  intros Hreach. pose proof (reachable_caches_have_timezone env s Hreach) as Hinv.
  split; [|split; [|split; [|split]]].
  - intros location loc s' H.
    pose proof (proj2 (geolocation_keeps_timezones env location s Hinv) loc s' H) as Htz.
    split; [exact Htz | apply has_timezone_getitem; exact Htz].
  - intros lat lon loc s' H.
    exact (proj2 (reverse_keeps_timezones env lat lon s Hinv) loc s' H).
  - intros lat lon loc s' H. apply reverse_body_inv in H.
    destruct H as (dd & a & display_name & city_code & city_name & state_code & state_name
                   & country_code & country_name & latitude & longitude & tz
                   & _ & _ & _ & _ & _ & _ & Htz & ->).
    exists latitude, longitude, tz. repeat split. exact Htz.
  - intros location data loc s' Hfwd Hu H.
    destruct (details_body_inv env location s s' data loc Hfwd Hu H)
      as (osmid & osmtype & details & tags & cc & address & city_code & city_name
          & state_code & state_name & country_code & country_name & tz
          & _ & _ & _ & _ & _ & _ & Htz & ->).
    exists tz. split; [exact Htz | reflexivity].
  - intros Hcode location loc s' H.
    assert (Hrec : forall a b c d e f g h i tz kwargs s0,
               _get_timezone env kwargs s0 = (Ok tz, s0) ->
               timezone_with_code (location_record a b c d e f g h i tz)).
    { intros a b c d e f g h i tz kwargs s0 Htz.
      destruct (get_timezone_code env kwargs s0 s0 tz Hcode Htz) as (code & Hc).
      exists tz, code. split; [reflexivity | exact Hc]. }
    pose proof (reachable_keeps_records env timezone_with_code Hrec s Hreach) as Hall.
    exact (proj2 (geolocation_keeps_records env timezone_with_code Hrec location s Hall)
             loc s' H).
Qed.

Lemma iberia_state_reachable : reachable iberia_env iberia_state.
Proof.
  unfold iberia_state.
  apply reach_get_geolocation, reach_advance; [|lia].
  apply reach_get_geolocation, reach_initial.
Defined.

Lemma iberia_fallback_has_code : fallback_has_code iberia_env.
Proof.
  intros _ tz Htz. inversion Htz. exists (VStr "Europe/Lisbon"). reflexivity.
Defined.

Lemma records_carry_timezone_witness :
  exists loc s',
    _get_geolocation iberia_env "Porto" (advance 200 iberia_state) = (Ok loc, s') /\
    has_timezone loc = true /\
    timezone_with_code loc.
Proof.
  assert (Hreach : reachable iberia_env (advance 200 iberia_state))
    by (apply reach_advance; [exact iberia_state_reachable | lia]).
  eexists. eexists. split; [reflexivity|].
  pose proof (records_carry_timezone iberia_env (advance 200 iberia_state) Hreach)
    as (Hfield & _ & _ & _ & Hcode).
  split.
  - exact (proj1 (Hfield "Porto" _ _ eq_refl)).
  - exact (Hcode iberia_fallback_has_code "Porto" _ _ eq_refl).
Defined.

(** C9, as stated, fails in its last part: a configured timezone that is
    a plain string is attached to the record as it is, the record
    carries its timezone field, and the facade's read of [["code"]] on
    it raises [TypeError]. *)
Lemma facade_cannot_read_code :
  exists loc s',
    reachable string_zone_env (initial_state 0) /\
    _get_geolocation string_zone_env "Porto" (initial_state 0) = (Ok loc, s') /\
    has_timezone loc = true /\
    field loc ["timezone"] = Some (VStr "Europe/Lisbon") /\
    get_geolocation string_zone_env "Porto" (initial_state 0) = (Raise TypeError, s').
Proof.
  eexists. eexists.
  split; [apply reach_initial|].
  split; [reflexivity|].
  repeat split.
Qed.

(** ** The result cache *)



Section CacheLaws.
Context {K : Type} (key_eqb : K -> K -> bool).
Hypothesis key_eqb_refl : forall k, key_eqb k k = true.


Variables (sel : state -> cache K) (upd : cache K -> state -> state).
Variable f : K -> M value.


Lemma timed_lru_cache_miss (k : K) (s : state) :
  served_from_cache key_eqb (sel s) k (clock s) = false ->
  timed_lru_cache key_eqb 600 sel upd f k s =
    match f k s with
    | (Ok v, s') => (Ok v, upd (cache_store key_eqb k (v, clock s') (sel s')) s')
    | (Raise e, s') => (Raise e, s')
    end.
Proof.
  unfold served_from_cache, timed_lru_cache. intros H.
  destruct (cache_lookup key_eqb k (sel s)) as [[v t0]|]; [|reflexivity].
  rewrite H. reflexivity.
Qed.


End CacheLaws.









(** ** An unknown location *)

(** C1, which the code violates.  When the provider knows no place of
    the given name the forward search answers with the empty list, and
    [.json()[0]] raises [IndexError]; that is the exception leaving
    [get_geolocation], not [LocationNotFoundError]. *)
Theorem get_geolocation_unknown_location :
  get_geolocation atlantis_env "Atlantis" (initial_state 0)
  = (Raise IndexError, set_trace [search_request "Atlantis"] (initial_state 0)).
Proof. reflexivity. Qed.

(** X17.  For every location text, provider and state in which the call
    is not served from the cache: when the forward search answers with
    the empty list, [get_geolocation] raises [IndexError] after that one
    request. *)
Lemma get_geolocation_empty_result (env : Env) (location : string) (s : state) :
  served_from_cache String.eqb (geo_cache s) location (clock s) = false ->
  http env (trace s) (search_request location) = Some (VList []) ->
  get_geolocation env location s
  = (Raise IndexError, set_trace (trace s ++ [search_request location]) s).
Proof.
  intros Hmiss Hhttp.
  unfold get_geolocation, _get_geolocation.
  apply bind_run_raise.
  rewrite (timed_lru_cache_miss String.eqb geo_cache set_geo_cache _ _ _ Hmiss).
  unfold _get_geolocation_body.
  rewrite (bind_run _ _ _ _ _ (requests_get_json_run _ _ _ _ _ _ Hhttp)).
  reflexivity.
Qed.

Lemma harmless_Ok {A} (a : A) : harmless (Ok a).
Proof. discriminate. Qed.

Lemma harmless_rbind {A B} (r : result A) (k : A -> result B) :
  harmless r -> (forall a, harmless (k a)) -> harmless (rbind r k).
Proof.
  intros Hr Hk. destruct r as [a|e]; cbn; [apply Hk|].
  intros E. apply Hr. inversion E. reflexivity.
Qed.

Lemma harmless_or_else (a b : result value) :
  harmless a -> harmless b -> harmless (a or b).
Proof.
  intros Ha Hb. unfold or_else. apply harmless_rbind; [exact Ha|].
  intros x. destruct (truthy x); [apply harmless_Ok | exact Hb].
Qed.

Lemma harmless_get_default (v : value) (k : string) (d : value) :
  harmless (get_default v k d).
Proof. destruct v; discriminate. Qed.

Lemma harmless_get (v : value) (k : string) : harmless (get v k).
Proof. apply harmless_get_default. Qed.

Lemma harmless_getitem (v : value) (k : string) : harmless (getitem v k).
Proof. destruct v as [| | | | | |d]; try discriminate. cbn. destruct (lookup k d); discriminate. Qed.

Lemma harmless_getitem0 (v : value) : harmless (getitem0 v).
Proof. destruct v as [| | | |x|l|d]; try discriminate; [destruct x | destruct l]; discriminate. Qed.

Lemma harmless_upper (v : value) : harmless (upper v).
Proof. destruct v; discriminate. Qed.

Lemma harmless_replace_slash (v : value) : harmless (replace_slash v).
Proof. destruct v; discriminate. Qed.

Lemma harmless_py_float (env : Env) (v : value) : harmless (py_float env v).
Proof.
  destruct v as [| | z | | x | |]; try discriminate; cbn;
    [destruct (float_of_int env z) | destruct (float_of_str env x)]; discriminate.
Qed.

Lemma harmless_if {A} (b : bool) (r1 r2 : result A) :
  harmless r1 -> harmless r2 -> harmless (if b then r1 else r2).
Proof. destruct b; auto. Qed.

Create HintDb unknown discriminated.
#[local] Hint Resolve harmless_Ok harmless_get_default harmless_get harmless_getitem
  harmless_getitem0 harmless_upper harmless_replace_slash harmless_py_float
  harmless_or_else harmless_if : unknown.
#[local] Hint Extern 2 (harmless (rbind _ _)) =>
  apply harmless_rbind; [ | intros ? ] : unknown.

Lemma never_unknown_lift {A} (r : result A) : harmless r -> never_unknown (lift r).
Proof. intros H s. exact H. Qed.

Lemma never_unknown_ret {A} (a : A) : never_unknown (ret a).
Proof. intros s. discriminate. Qed.

Lemma never_unknown_bind {A B} (m : M A) (k : A -> M B) :
  never_unknown m -> (forall a, never_unknown (k a)) -> never_unknown (bind m k).
Proof.
  intros Hm Hk s. unfold bind. specialize (Hm s).
  destruct (m s) as [[a|e] s1]; [apply Hk|].
  cbn in *. intros E. apply Hm. inversion E. reflexivity.
Qed.

Lemma never_unknown_if {A} (b : bool) (m1 m2 : M A) :
  never_unknown m1 -> never_unknown m2 -> never_unknown (if b then m1 else m2).
Proof. destruct b; auto. Qed.

Lemma never_unknown_requests (env : Env) (u : string) (ps : list (string * value))
    (hs : list (string * string)) :
  never_unknown (requests_get_json env u ps hs).
Proof. intros s. cbn. destruct (http env (trace s) _); discriminate. Qed.

Lemma never_unknown_cached {K} (key_eqb : K -> K -> bool) (seconds : Z)
    (sel : state -> cache K) (upd : cache K -> state -> state) (f : K -> M value) (k : K) :
  never_unknown (f k) -> never_unknown (timed_lru_cache key_eqb seconds sel upd f k).
Proof.
  intros Hf s. specialize (Hf s).
  destruct (timed_lru_cache_cases key_eqb seconds sel upd f k s)
    as [(v & t0 & _ & _ & ->) | [(v & s1 & _ & ->) | (e & s1 & He & ->)]];
    try discriminate.
  rewrite He in Hf. exact Hf.
Qed.

#[local] Hint Resolve never_unknown_ret never_unknown_requests : unknown.
#[local] Hint Extern 2 (never_unknown (lift _)) => apply never_unknown_lift : unknown.
#[local] Hint Extern 2 (never_unknown (bind _ _)) =>
  apply never_unknown_bind; [ | intros ? ] : unknown.
#[local] Hint Extern 2 (never_unknown (if _ then _ else _)) =>
  apply never_unknown_if : unknown.
#[local] Hint Extern 2 (never_unknown (let '(_, _) := ?p in _)) => destruct p : unknown.
#[local] Hint Extern 2 (harmless (match ?x with _ => _ end)) => destruct x; cbn : unknown.
#[local] Hint Extern 1 (harmless (Raise _)) => discriminate : unknown.

Lemma never_unknown__get_timezone (env : Env) (kwargs : list (string * value)) :
  never_unknown (_get_timezone env kwargs).
Proof.
  unfold _get_timezone, _get_lat_lon.
  destruct (TimezoneFinder env); auto 30 with unknown.
Qed.
#[local] Hint Resolve never_unknown__get_timezone : unknown.

Lemma never_unknown_reverse (env : Env) (lat lon : value) :
  never_unknown (get_reverse_geolocation env lat lon).
Proof.
  apply never_unknown_cached. unfold get_reverse_geolocation_body. cbv zeta.
  change (contains "timezone" _) with false. cbn [negb].
  auto 40 with unknown.
Qed.
#[local] Hint Resolve never_unknown_reverse : unknown.

Lemma never_unknown_geolocation (env : Env) (location : string) :
  never_unknown (_get_geolocation env location).
Proof.
  apply never_unknown_cached. unfold _get_geolocation_body. cbv zeta.
  apply never_unknown_bind; [auto with unknown | intros results].
  apply never_unknown_bind; [auto with unknown | intros data].
  apply never_unknown_bind; [auto with unknown | intros lat].
  apply never_unknown_bind; [auto with unknown | intros lon].
  apply never_unknown_if; [auto with unknown|].
  change (contains "timezone" _) with false. cbn [negb].
  auto 60 with unknown.
Qed.

(** X16.  In the states the module can reach, [get_geolocation] never
    raises [LocationNotFoundError]: [_get_geolocation] returns a record
    or raises something else, and never returns [None]. *)
Lemma get_geolocation_never_unknown (env : Env) (location : string) (s : state) :
  reachable env s ->
  fst (get_geolocation env location s) <> Raise LocationNotFoundError.
Proof.
  intros Hreach. pose proof (reachable_caches_have_timezone env s Hreach) as Hinv.
  pose proof (never_unknown_geolocation env location s) as Hraise.
  pose proof (proj2 (geolocation_keeps_timezones env location s Hinv)) as Hloc.
  unfold get_geolocation, bind.
  destruct (_get_geolocation env location s) as [[loc|e] s1]; [|exact Hraise].
  specialize (Hloc loc s1 eq_refl).
  destruct loc as [| | | | | |d]; try discriminate Hloc.
  change (harmless (fst (
    (city <-- lift (c <- getitem (VDict d) "city" ;; getitem c "name") ;;
     region <-- lift (c <- getitem (VDict d) "city" ;; s <- getitem c "state" ;;
                      getitem s "name") ;;
     country <-- lift (c <- getitem (VDict d) "city" ;; s <- getitem c "state" ;;
                       k <- getitem s "country" ;; getitem k "name") ;;
     latitude <-- lift (c <- getitem (VDict d) "coordinate" ;; getitem c "latitude") ;;
     longitude <-- lift (c <- getitem (VDict d) "coordinate" ;; getitem c "longitude") ;;
     timezone <-- lift (t <- getitem (VDict d) "timezone" ;; getitem t "code") ;;
     ret (VDict [("city", city);
                 ("region", region);
                 ("country", country);
                 ("latitude", latitude);
                 ("longitude", longitude);
                 ("timezone", timezone)])) s1))).
  generalize s1. change (never_unknown
    (city <-- lift (c <- getitem (VDict d) "city" ;; getitem c "name") ;;
     region <-- lift (c <- getitem (VDict d) "city" ;; s <- getitem c "state" ;;
                      getitem s "name") ;;
     country <-- lift (c <- getitem (VDict d) "city" ;; s <- getitem c "state" ;;
                       k <- getitem s "country" ;; getitem k "name") ;;
     latitude <-- lift (c <- getitem (VDict d) "coordinate" ;; getitem c "latitude") ;;
     longitude <-- lift (c <- getitem (VDict d) "coordinate" ;; getitem c "longitude") ;;
     timezone <-- lift (t <- getitem (VDict d) "timezone" ;; getitem t "code") ;;
     ret (VDict [("city", city);
                 ("region", region);
                 ("country", country);
                 ("latitude", latitude);
                 ("longitude", longitude);
                 ("timezone", timezone)]))).
  auto 40 with unknown.
Qed.

(** * Further properties of the module *)

(** ** [chunk_list]: sizes and counts *)

Lemma chunk_loop_count {A} (n : nat) (it : list A) :
  List.length (chunk_loop it (S n)) = ((List.length it + n) / S n)%nat /\
  Forall (fun c => c <> []) (chunk_loop it (S n)).
Proof.
  remember (List.length it) as m eqn:Hm.
  revert it Hm. induction m as [m IH] using lt_wf_ind. intros it Hm.
  destruct it as [|x it].
  - rewrite chunk_loop_nil. subst m. cbn [List.length].
    rewrite Nat.div_small by lia. split; [reflexivity | constructor].
  - rewrite chunk_loop_cons.
    assert (Hlen : (List.length (skipn n it) < m)%nat).
    { subst m. rewrite List.length_skipn. cbn [List.length]. lia. }
    destruct (IH _ Hlen (skipn n it) eq_refl) as [Hc Hne].
    split; [|constructor; [discriminate | exact Hne]].
    cbn [List.length]. rewrite Hc, List.length_skipn. subst m. cbn [List.length].
    destruct (Nat.le_gt_cases n (List.length it)) as [Hle|Hgt].
    + replace (List.length it - n + n)%nat with (List.length it) by lia.
      replace (S (List.length it) + n)%nat with (List.length it + 1 * S n)%nat by lia.
      rewrite Nat.div_add by lia. lia.
    + replace (List.length it - n + n)%nat with n by lia.
      rewrite (Nat.div_small n (S n)) by lia.
      apply (Nat.div_unique _ _ 1%nat (List.length it)); lia.
Qed.

(** X1.  For a size with [0 < size <= sys.maxsize], [chunk_list] returns
    ceil(len / size) tuples, none of them empty. *)
Theorem chunk_list_count {A} (it : list A) (size : Z) :
  0 < size <= sys_maxsize ->
  exists chunks,
    chunk_list it size = Ok chunks /\
    Z.of_nat (List.length chunks) = (Z.of_nat (List.length it) + size - 1) / size /\
    Forall (fun c => c <> []) chunks.
Proof.
  intros Hsize. rewrite chunk_list_in_range by lia.
  destruct (Z.to_nat size) as [|n] eqn:Hn; [lia|].
  exists (chunk_loop it (S n)).
  destruct (chunk_loop_count n it) as [Hc Hne].
  split; [reflexivity|]. split; [|exact Hne].
  rewrite Hc. rewrite Nat2Z.inj_div. f_equal; lia.
Qed.

Lemma chunk_list_count_witness :
  0 < 3 <= sys_maxsize /\
  exists chunks,
    chunk_list [10; 20; 30; 40; 50; 60; 70] 3 = Ok chunks /\
    Z.of_nat (List.length chunks) = (Z.of_nat 7 + 3 - 1) / 3 /\
    Forall (fun c => c <> []) chunks.
Proof.
  assert (H : 0 < 3 <= sys_maxsize) by (split; [reflexivity | discriminate]).
  split; [exact H|]. apply (chunk_list_count [10; 20; 30; 40; 50; 60; 70] 3). exact H.
Defined.

(** X2.  The degenerate sizes: with size 0 the first tuple taken is
    already the sentinel [()], so the result is the empty list whatever
    the input holds; a negative size makes [islice] raise [ValueError],
    for the empty list too. *)
Theorem chunk_list_degenerate_sizes {A} (it : list A) :
  chunk_list it 0 = Ok [] /\
  (forall size, size < 0 -> chunk_list it size = Raise ValueError).
Proof.
  split.
  - rewrite chunk_list_in_range by (split; [reflexivity | discriminate]).
    cbn. rewrite chunk_loop_zero. reflexivity.
  - intros size Hneg. unfold chunk_list.
    destruct (Z.ltb_spec size 0); [reflexivity | lia].
Qed.

(** X3.  A list that fits in one tuple comes back as that single tuple,
    for every size [islice] accepts. *)
Theorem chunk_list_single {A} (x : A) (it : list A) (size : Z) :
  Z.of_nat (List.length (x :: it)) <= size <= sys_maxsize ->
  chunk_list (x :: it) size = Ok [x :: it].
Proof.
  intros Hfit. cbn [List.length] in Hfit. rewrite chunk_list_in_range by lia.
  destruct (Z.to_nat size) as [|n] eqn:Hn; [lia|].
  rewrite chunk_loop_cons.
  rewrite firstn_all2 by lia. rewrite skipn_all2 by lia.
  rewrite chunk_loop_nil. reflexivity.
Qed.

Lemma chunk_list_single_witness :
  chunk_list ["mon"; "tue"] 5 = Ok [["mon"; "tue"]].
Proof. apply chunk_list_single. split; [cbn; lia | discriminate]. Defined.

(** ** The record built from a reverse-geocode response *)

Lemma get_dict (d : list (string * value)) (k : string) :
  get (VDict d) k = Ok (get_or_none d k).
Proof. reflexivity. Qed.

Lemma getitem_lookup (d : list (string * value)) (k : string) (v : value) :
  lookup k d = Some v -> getitem (VDict d) k = Ok v.
Proof. intros H. cbn. rewrite H. reflexivity. Qed.

Lemma get_or_none_lookup (d : list (string * value)) (k : string) (v : value) :
  lookup k d = Some v -> get_or_none d k = v.
Proof. intros H. unfold get_or_none. rewrite H. reflexivity. Qed.

Lemma or_else_Ok (x : value) (b : result value) :
  (Ok x or b) = if truthy x then Ok x else b.
Proof. reflexivity. Qed.

Lemma upper_string_empty (c : string) : upper_string c = "" -> c = "".
Proof. destruct c; [reflexivity | discriminate]. Qed.

Lemma reverse_country_code (a : list (string * value)) :
  absent_or_string (lookup "country_code" a) = true ->
  ((cc <- get_default (VDict a) "country_code" (VStr "") ;; upper cc) or Ok (VStr ""))
  = Ok (VStr (upper_string (string_or_empty (lookup "country_code" a)))).
Proof.
  unfold get_default, absent_or_string, string_or_empty.
  destruct (lookup "country_code" a) as [[| | | |c| |]|]; try discriminate; intros _;
    cbn [rbind upper]; rewrite or_else_Ok; [|reflexivity].
  destruct (truthy (VStr (upper_string c))) eqn:T; [reflexivity|].
  cbn in T. destruct (String.eqb_spec (upper_string c) ""); [|discriminate].
  congruence.
Qed.

(** X4.  Whenever the reverse response is an object with a
    [display_name] and an [address] object whose [country_code], if
    any, is a string, and the timezone lookup succeeds, the body of
    [get_reverse_geolocation] returns a record after exactly one
    request, with: the city code from postcode; the city name from city,
    village, town, hamlet, county; the state code from state_code,
    ISO3166-2-lvl4, ISO3166-2-lvl6; the state name from state, county;
    the country code in upper case; the country name; each the first
    non-empty, else the empty string; and the coordinate the response
    reports, or the one passed in where it reports none. *)
Theorem reverse_record (env : Env) (lat lon : value) (s : state)
    (dd a : list (string * value)) (display_name tz : value) :
  http env (trace s) (reverse_request lat lon) = Some (VDict dd) ->
  lookup "display_name" dd = Some display_name ->
  lookup "address" dd = Some (VDict a) ->
  absent_or_string (lookup "country_code" a) = true ->
  let s1 := set_trace (trace s ++ [reverse_request lat lon]) s in
  let latitude := first_truthy [lookup "lat" dd] lat in
  let longitude := first_truthy [lookup "lon" dd] lon in
  _get_timezone env [("lat", latitude); ("lon", longitude)] s1 = (Ok tz, s1) ->
  get_reverse_geolocation_body env (lat, lon) s =
    (Ok (location_record display_name
           (first_nonempty [lookup "postcode" a])
           (first_nonempty [lookup "city" a; lookup "village" a; lookup "town" a;
                            lookup "hamlet" a; lookup "county" a])
           (first_nonempty [lookup "state_code" a; lookup "ISO3166-2-lvl4" a;
                            lookup "ISO3166-2-lvl6" a])
           (first_nonempty [lookup "state" a; lookup "county" a])
           (VStr (upper_string (string_or_empty (lookup "country_code" a))))
           (first_nonempty [lookup "country" a])
           latitude longitude tz),
     s1).
Proof.
  intros Hhttp Hname Haddr Hcc s1 latitude longitude Htz.
  assert (Hlat : (get (VDict dd) "lat" or Ok lat) = Ok latitude).
  { rewrite get_dict, or_else_Ok. unfold latitude, get_or_none. cbn [first_truthy].
    destruct (lookup "lat" dd) as [v|]; [destruct (truthy v)|]; reflexivity. }
  assert (Hlon : (get (VDict dd) "lon" or Ok lon) = Ok longitude).
  { rewrite get_dict, or_else_Ok. unfold longitude, get_or_none. cbn [first_truthy].
    destruct (lookup "lon" dd) as [v|]; [destruct (truthy v)|]; reflexivity. }
  unfold get_reverse_geolocation_body.
  rewrite (bind_run _ _ _ _ _ (requests_get_json_run _ _ _ _ _ _ Hhttp)).
  rewrite bind_lift, get_dict, (get_or_none_lookup dd "address" _ Haddr).
  rewrite bind_lift, (getitem_lookup dd "display_name" _ Hname).
  pose proof (get_chain a ["postcode"]) as G1.
  pose proof (get_chain a ["city"; "village"; "town"; "hamlet"; "county"]) as G2.
  pose proof (get_chain a ["state_code"; "ISO3166-2-lvl4"; "ISO3166-2-lvl6"]) as G3.
  pose proof (get_chain a ["state"; "county"]) as G4.
  pose proof (get_chain a ["country"]) as G5.
  cbn [fold_right map] in G1, G2, G3, G4, G5.
  rewrite bind_lift, G1. rewrite bind_lift, G2. rewrite bind_lift, G3.
  rewrite bind_lift, G4. rewrite bind_lift, (reverse_country_code a Hcc).
  rewrite bind_lift, G5. rewrite bind_lift, Hlat. rewrite bind_lift, Hlon.
  cbv zeta. change (contains "timezone" _) with false. cbn [negb].
  rewrite bind_lift. rewrite bind_lift.
  etransitivity; [apply (bind_run _ _ _ _ _ Htz) | reflexivity].
Qed.

Lemma reverse_record_witness :
  get_reverse_geolocation_body porto_env (VStr "41.1494512", VStr "-8.6107884")
    (initial_state 0) =
  (Ok (location_record (VStr "Praca da Liberdade, Porto, Portugal")
         (VStr "4000-069") (VStr "Porto") (VStr "") (VStr "Porto")
         (VStr "PT") (VStr "Portugal") (VStr "41.1495") (VStr "-8.6108")
         (VDict [("name", VStr "Europe Lisbon"); ("code", VStr "Europe/Lisbon")])),
   set_trace [reverse_request (VStr "41.1494512") (VStr "-8.6107884")] (initial_state 0)).
Proof.
  exact (reverse_record porto_env (VStr "41.1494512") (VStr "-8.6107884") (initial_state 0)
           _ _ _ _ eq_refl eq_refl eq_refl eq_refl eq_refl).
Defined.

(** X5.  A reverse response that lacks what the body reads makes it
    raise after its one request: [KeyError] without a [display_name]
    (the provider's "Unable to geocode" answer is such a response), and
    [AttributeError] when the [display_name] is there but the [address]
    is missing or is not an object. *)
Theorem reverse_malformed_response (env : Env) (lat lon : value) (s : state)
    (dd : list (string * value)) :
  http env (trace s) (reverse_request lat lon) = Some (VDict dd) ->
  let s1 := set_trace (trace s ++ [reverse_request lat lon]) s in
  (lookup "display_name" dd = None ->
   get_reverse_geolocation_body env (lat, lon) s = (Raise KeyError, s1)) /\
  (forall display_name,
      lookup "display_name" dd = Some display_name ->
      (forall a, lookup "address" dd <> Some (VDict a)) ->
      get_reverse_geolocation_body env (lat, lon) s = (Raise AttributeError, s1)).
Proof.
  intros Hhttp s1. split.
  - intros Hname. unfold get_reverse_geolocation_body.
    rewrite (bind_run _ _ _ _ _ (requests_get_json_run _ _ _ _ _ _ Hhttp)).
    rewrite bind_lift, get_dict. rewrite bind_lift. cbn [getitem]. rewrite Hname.
    reflexivity.
  - intros display_name Hname Haddr. unfold get_reverse_geolocation_body.
    rewrite (bind_run _ _ _ _ _ (requests_get_json_run _ _ _ _ _ _ Hhttp)).
    rewrite bind_lift, get_dict.
    rewrite bind_lift, (getitem_lookup dd "display_name" _ Hname).
    rewrite bind_lift. unfold get_or_none.
    destruct (lookup "address" dd) as [[| | | | | |a]|]; try reflexivity.
    exfalso. apply (Haddr a). reflexivity.
Qed.

Lemma reverse_malformed_response_witness :
  get_reverse_geolocation_body ocean_env (VFloat 30%float, VFloat (-40)%float)
    (initial_state 0)
  = (Raise KeyError,
     set_trace [reverse_request (VFloat 30%float) (VFloat (-40)%float)] (initial_state 0)).
Proof.
  exact (proj1 (reverse_malformed_response ocean_env (VFloat 30%float) (VFloat (-40)%float)
                  (initial_state 0) _ eq_refl) eq_refl).
Defined.

(** ** The record built on the details path *)

Lemma first_truthy_step (o : option value) (y x otherwise : value)
    (rest : list (option value)) :
  reads o y ->
  (if truthy y then x = y else x = first_truthy rest otherwise) ->
  x = first_truthy (o :: rest) otherwise.
Proof.
  unfold reads. intros Hr Hx. cbn [first_truthy].
  destruct o as [v|].
  - destruct (truthy v) eqn:Tv.
    + subst y. rewrite Tv in Hx. exact Hx.
    + rewrite Hr in Hx. exact Hx.
  - rewrite Hr in Hx. exact Hx.
Qed.

(** What [tags.get(k)] reads is the address tag [k] of the details, or
    [None]. *)
Lemma address_tag_exact (dd : list (string * value)) (tags y : value) (k : string) :
  (get (VDict dd) "addresstags" or Ok (VDict [])) = Ok tags ->
  get tags k = Ok y ->
  y = or_none (field (VDict dd) ["addresstags"; k]).
Proof.
  intros Htags Hy. apply get_Ok_inv in Hy. destruct Hy as (t & -> & ->).
  rewrite get_dict, or_else_Ok in Htags. unfold get_or_none in Htags.
  destruct (lookup "addresstags" dd) as [x|] eqn:Ea.
  - rewrite (field_cons dd "addresstags" x [k] Ea).
    destruct (truthy x) eqn:Tx; inversion Htags; subst.
    + rewrite field_one. reflexivity.
    + rewrite (falsy_field x k Tx). reflexivity.
  - cbn [field]. rewrite Ea. cbn in Htags. inversion Htags. reflexivity.
Qed.

(** A completed run on the details path, with everything it read. *)
Lemma details_body_full (env : Env) (location : string) (s s' : state)
    (data : list (string * value)) (details loc : value) :
  details_path env s location data details ->
  _get_geolocation_body env location s = (Ok loc, s') ->
  exists tags place_type name cc address city_code state_code state_name country_code tz,
    (get details "addresstags" or Ok (VDict [])) = Ok tags /\
    ((x <- getitem details "extratags" ;; get x "linked_place") or
     get details "category" or
     get (VDict data) "type" or get (VDict data) "class") = Ok place_type /\
    (getitem details "localname" or
     (n <- getitem details "names" ;; get n "name") or
     (n <- getitem details "names" ;; get n "official_name") or
     getitem (VDict data) "display_name") = Ok name /\
    (getitem details "country_code" or
     get tags "country" or
     (x <- getitem details "extratags" ;; get x "ISO3166-1:alpha2") or
     Ok (VStr "")) = Ok cc /\
    getitem (VDict data) "display_name" = Ok address /\
    (get tags "postcode" or
     getitem details "calculated_postcode" or Ok (VStr "")) = Ok city_code /\
    (get tags "state_code" or
     getitem details "calculated_postcode" or Ok (VStr "")) = Ok state_code /\
    (if eq_str place_type "state" then Ok name else get tags "state") = Ok state_name /\
    upper cc = Ok country_code /\
    loc = location_record address city_code
            (if eq_str place_type "city" then name else VStr "")
            state_code state_name country_code
            (if eq_str place_type "country" then name else VStr "")
            (get_or_none data "lat") (get_or_none data "lon") tz.
Proof.
  intros ((results & Hhttp & Hdata) & Hu & osmid0 & osmtype0 & Hkey & Hdet) H.
  revert H. run_to_dispatch Hhttp Hdata. rewrite Hu. intros H.
  step H osmid Hid.
  step H osmtype Hty.
  assert (Hk : details_key data = Ok (osmid, osmtype)).
  { unfold details_key. rewrite Hid. cbn [rbind]. rewrite Hty. reflexivity. }
  rewrite Hkey in Hk. inversion Hk; subst osmid0 osmtype0. clear Hk.
  step H details' Hreq.
  apply requests_get_json_Ok_inv in Hreq. destruct Hreq as [Hreq ->].
  assert (E : Some details' = Some details) by (rewrite <- Hreq; exact Hdet).
  inversion E; subst details'. clear E.
  step H tags Htags.
  step H place_type Hpt.
  step H name Hname.
  step H cc Hcc.
  step H address Haddr.
  step H city_code Hcode.
  cbv zeta in H.
  step H state_code Hsc.
  step H state_name Hsn.
  step H country_code Hcoc.
  cbv zeta in H.
  change (contains "timezone" _) with false in H. cbn [negb] in H.
  step H tz Htz.
  apply ret_inv in H. destruct H as [H _].
  exists tags, place_type, name, cc, address, city_code, state_code, state_name,
    country_code, tz.
  repeat split; try assumption.
  inversion H. reflexivity.
Qed.

(** X6.  On the details path a record is only returned when the match
    has a [display_name] and the details response is an object carrying
    [extratags] (an object), [localname] and [country_code]: without any
    of these no record comes back. *)
Theorem details_required_keys (env : Env) (location : string) (s s' : state)
    (data : list (string * value)) (details loc : value) :
  details_path env s location data details ->
  _get_geolocation_body env location s = (Ok loc, s') ->
  exists dd extratags localname country_code display_name,
    details = VDict dd /\
    lookup "extratags" dd = Some (VDict extratags) /\
    lookup "localname" dd = Some localname /\
    lookup "country_code" dd = Some country_code /\
    lookup "display_name" data = Some display_name.
Proof.
  intros Hpath H.
  destruct (details_body_full env location s s' data details loc Hpath H)
    as (tags & place_type & name & cc & address & city_code & state_code & state_name
        & country_code & tz & Htags & Hpt & Hname & Hcc & Haddr & _).
  apply or_else_Ok_inv in Hpt. destruct Hpt as (y & Hy & _).
  apply rbind_Ok_inv in Hy. destruct Hy as (x & Hx & Hy).
  destruct details as [| | | | | |dd]; try discriminate Hx.
  apply get_Ok_inv in Hy. destruct Hy as (e & -> & _).
  apply or_else_Ok_inv in Hname. destruct Hname as (ln & Hln & _).
  apply or_else_Ok_inv in Hcc. destruct Hcc as (ccv & Hccv & _).
  cbn [getitem] in Hx, Hln, Hccv, Haddr.
  destruct (lookup "extratags" dd) as [x'|] eqn:E1; [|discriminate Hx].
  destruct (lookup "localname" dd) as [ln'|] eqn:E2; [|discriminate Hln].
  destruct (lookup "country_code" dd) as [cc'|] eqn:E3; [|discriminate Hccv].
  destruct (lookup "display_name" data) as [dn|] eqn:E4; [|discriminate Haddr].
  inversion Hx; subst x'.
  exists dd, e, ln', cc', dn. repeat split; assumption.
Qed.

Lemma details_required_keys_witness :
  exists dd extratags localname country_code display_name,
    olivenza_details = VDict dd /\
    lookup "extratags" dd = Some (VDict extratags) /\
    lookup "localname" dd = Some localname /\
    lookup "country_code" dd = Some country_code /\
    lookup "display_name" olivenza_match = Some display_name.
Proof.
  exact (details_required_keys olivenza_env "Olivenza" (initial_state 0) _
           olivenza_match olivenza_details _ olivenza_details_path eq_refl).
Defined.

Lemma place_type_chain (dd data : list (string * value)) (place_type : value) :
  ((x <- getitem (VDict dd) "extratags" ;; get x "linked_place") or
   get (VDict dd) "category" or
   get (VDict data) "type" or get (VDict data) "class") = Ok place_type ->
  place_type = first_truthy [field (VDict dd) ["extratags"; "linked_place"];
                             lookup "category" dd;
                             lookup "type" data]
                 (get_or_none data "class").
Proof.
  intros H.
  apply or_else_Ok_inv in H. destruct H as (y1 & Hy1 & H).
  apply rbind_Ok_inv in Hy1. destruct Hy1 as (x & Hx & Hy1).
  cbn [getitem] in Hx.
  destruct (lookup "extratags" dd) as [x'|] eqn:Ee; [|discriminate Hx].
  inversion Hx; subst x'. clear Hx.
  apply get_Ok_inv in Hy1. destruct Hy1 as (e & -> & ->).
  apply (first_truthy_step _ (get_or_none e "linked_place"));
    [rewrite (field_cons dd "extratags" (VDict e) _ Ee), field_one; apply reads_lookup|].
  destruct (truthy (get_or_none e "linked_place")); [exact H|].
  rewrite get_dict, or_else_Ok in H.
  apply (first_truthy_step _ (get_or_none dd "category")); [apply reads_lookup|].
  destruct (truthy (get_or_none dd "category")); [congruence|].
  rewrite get_dict, or_else_Ok in H.
  apply (first_truthy_step _ (get_or_none data "type")); [apply reads_lookup|].
  destruct (truthy (get_or_none data "type")); [congruence|].
  rewrite get_dict in H. cbn [first_truthy]. congruence.
Qed.

Lemma name_chain (dd data : list (string * value)) (name : value) :
  (getitem (VDict dd) "localname" or
   (n <- getitem (VDict dd) "names" ;; get n "name") or
   (n <- getitem (VDict dd) "names" ;; get n "official_name") or
   getitem (VDict data) "display_name") = Ok name ->
  name = first_truthy [lookup "localname" dd;
                       field (VDict dd) ["names"; "name"];
                       field (VDict dd) ["names"; "official_name"]]
           (get_or_none data "display_name").
Proof.
  intros H.
  apply or_else_Ok_inv in H. destruct H as (y1 & Hy1 & H).
  cbn [getitem] in Hy1.
  destruct (lookup "localname" dd) as [ln|] eqn:El; [|discriminate Hy1].
  inversion Hy1; subst ln. clear Hy1.
  apply (first_truthy_step _ y1); [cbn; destruct (truthy y1); reflexivity|].
  destruct (truthy y1); [exact H|].
  apply or_else_Ok_inv in H. destruct H as (y2 & Hy2 & H).
  apply rbind_Ok_inv in Hy2. destruct Hy2 as (n & Hn & Hy2).
  cbn [getitem] in Hn.
  destruct (lookup "names" dd) as [n'|] eqn:En; [|discriminate Hn].
  inversion Hn; subst n'. clear Hn.
  apply get_Ok_inv in Hy2. destruct Hy2 as (names & -> & ->).
  apply (first_truthy_step _ (get_or_none names "name"));
    [rewrite (field_cons dd "names" (VDict names) _ En), field_one; apply reads_lookup|].
  destruct (truthy (get_or_none names "name")); [exact H|].
  apply or_else_Ok_inv in H. destruct H as (y3 & Hy3 & H).
  cbn [getitem] in Hy3. rewrite En in Hy3. cbn [rbind] in Hy3.
  rewrite get_dict in Hy3. inversion Hy3; subst y3.
  apply (first_truthy_step _ (get_or_none names "official_name"));
    [rewrite (field_cons dd "names" (VDict names) _ En), field_one; apply reads_lookup|].
  destruct (truthy (get_or_none names "official_name")); [exact H|].
  cbn [getitem] in H. cbn [first_truthy]. unfold get_or_none.
  destruct (lookup "display_name" data); [congruence | discriminate H].
Qed.

(** X7.  On the details path the place type is the first non-empty of
    the linked_place extra tag, the details category, the match's type,
    and otherwise the match's class; the name is the first non-empty of
    the details localname, names.name, names.official_name, and otherwise
    the match's display name.  The name is written to the level the
    place type names and to no other: the city name is the name for a
    "city" and empty otherwise, the country name likewise for a
    "country", and the state name is the name for a "state" and the
    address tag state (or [None]) otherwise.  The record's address is
    the match's display name. *)
Theorem details_name_assignment (env : Env) (location : string) (s s' : state)
    (data dd : list (string * value)) (loc : value) :
  details_path env s location data (VDict dd) ->
  _get_geolocation_body env location s = (Ok loc, s') ->
  let place_type :=
    first_truthy [field (VDict dd) ["extratags"; "linked_place"];
                  lookup "category" dd;
                  lookup "type" data]
      (get_or_none data "class") in
  let name :=
    first_truthy [lookup "localname" dd;
                  field (VDict dd) ["names"; "name"];
                  field (VDict dd) ["names"; "official_name"]]
      (get_or_none data "display_name") in
  field loc ["city"; "name"]
  = Some (if eq_str place_type "city" then name else VStr "") /\
  field loc ["city"; "state"; "name"]
  = Some (if eq_str place_type "state" then name
          else or_none (field (VDict dd) ["addresstags"; "state"])) /\
  field loc ["city"; "state"; "country"; "name"]
  = Some (if eq_str place_type "country" then name else VStr "") /\
  field loc ["address"] = lookup "display_name" data.
Proof.
  intros Hpath H place_type name.
  destruct (details_body_full env location s s' data (VDict dd) loc Hpath H)
    as (tags & place_type' & name' & cc & address & city_code & state_code & state_name
        & country_code & tz & Htags & Hpt & Hname & _ & Haddr & _ & _ & Hsn & _ & ->).
  apply place_type_chain in Hpt. fold place_type in Hpt. subst place_type'.
  apply name_chain in Hname. fold name in Hname. subst name'.
  clearbody place_type name.
  repeat split.
  - unfold location_record. cbn.
    destruct (eq_str place_type "state").
    + congruence.
    + rewrite (address_tag_exact dd tags state_name "state" Htags Hsn). reflexivity.
  - cbn [getitem] in Haddr. unfold location_record. cbn.
    destruct (lookup "display_name" data); [congruence | discriminate Haddr].
Qed.

Lemma details_name_assignment_witness :
  exists loc s',
    _get_geolocation_body olivenza_env "Olivenza" (initial_state 0) = (Ok loc, s') /\
    field loc ["city"; "name"] = Some (VStr "Olivenza") /\
    field loc ["city"; "state"; "country"; "name"] = Some (VStr "").
Proof.
  eexists. eexists. split; [reflexivity|].
  pose proof (details_name_assignment olivenza_env "Olivenza" (initial_state 0) _
                olivenza_match _ _ olivenza_details_path eq_refl) as H.
  cbv zeta in H. destruct H as (Hcity & _ & Hcountry & _).
  split; [exact Hcity | exact Hcountry].
Defined.

(** X8.  On the details path the city code is the first non-empty of
    the address tag postcode and the details' calculated_postcode, and
    the state code the first non-empty of the address tag state_code and,
    again, the calculated_postcode; each is the empty string when neither
    is non-empty. *)
Theorem details_codes (env : Env) (location : string) (s s' : state)
    (data dd : list (string * value)) (loc : value) :
  details_path env s location data (VDict dd) ->
  _get_geolocation_body env location s = (Ok loc, s') ->
  field loc ["city"; "code"]
  = Some (first_nonempty [field (VDict dd) ["addresstags"; "postcode"];
                          lookup "calculated_postcode" dd]) /\
  field loc ["city"; "state"; "code"]
  = Some (first_nonempty [field (VDict dd) ["addresstags"; "state_code"];
                          lookup "calculated_postcode" dd]).
Proof.
  intros Hpath H.
  destruct (details_body_full env location s s' data (VDict dd) loc Hpath H)
    as (tags & place_type & name & cc & address & city_code & state_code & state_name
        & country_code & tz & Htags & _ & _ & _ & _ & Hcode & Hsc & _ & _ & ->).
  assert (Hchain : forall k x,
             (get tags k or getitem (VDict dd) "calculated_postcode" or Ok (VStr "")) = Ok x ->
             x = first_nonempty [field (VDict dd) ["addresstags"; k];
                                 lookup "calculated_postcode" dd]).
  { intros k x Hx.
    apply or_else_Ok_inv in Hx. destruct Hx as (y & Hy & Hx).
    apply get_Ok_inv in Hy. destruct Hy as (t & -> & ->).
    apply (first_nonempty_step _ (get_or_none t k));
      [apply reads_address_tag; exact Htags|].
    destruct (truthy (get_or_none t k)); [exact Hx|].
    apply or_else_Ok_inv in Hx. destruct Hx as (y2 & Hy2 & Hx).
    cbn [getitem] in Hy2.
    destruct (lookup "calculated_postcode" dd) as [p|]; [|discriminate Hy2].
    inversion Hy2; subst p. cbn [first_nonempty].
    destruct (truthy y2); congruence. }
  rewrite (Hchain "postcode" city_code Hcode), (Hchain "state_code" state_code Hsc).
  split; reflexivity.
Qed.

Lemma details_codes_witness :
  exists loc s',
    _get_geolocation_body olivenza_env "Olivenza" (initial_state 0) = (Ok loc, s') /\
    field loc ["city"; "code"] = Some (VStr "06100") /\
    field loc ["city"; "state"; "code"] = Some (VStr "06100").
Proof.
  eexists. eexists. split; [reflexivity|].
  exact (details_codes olivenza_env "Olivenza" (initial_state 0) _
           olivenza_match _ _ olivenza_details_path eq_refl).
Defined.

(** ** Failures on the way *)

(** X9.  A match without a usable coordinate and without the key of the
    details lookup stops the resolution after the forward search, with no
    second request: [KeyError] when [osm_id] or [osm_type] is missing,
    [IndexError] when [osm_type] is the empty string. *)
Theorem details_key_missing (env : Env) (location : string) (s : state)
    (data : list (string * value)) :
  forward_match env s location data ->
  usable_coordinate (VDict data) = false ->
  let s1 := set_trace (trace s ++ [search_request location]) s in
  (lookup "osm_id" data = None ->
   _get_geolocation_body env location s = (Raise KeyError, s1)) /\
  (forall osmid, lookup "osm_id" data = Some osmid ->
     lookup "osm_type" data = None ->
     _get_geolocation_body env location s = (Raise KeyError, s1)) /\
  (forall osmid, lookup "osm_id" data = Some osmid ->
     lookup "osm_type" data = Some (VStr "") ->
     _get_geolocation_body env location s = (Raise IndexError, s1)).
Proof.
  intros (results & Hhttp & Hdata) Hu s1.
  split; [|split].
  - intros Hid. run_to_dispatch Hhttp Hdata. rewrite Hu.
    rewrite bind_lift. cbn [getitem]. rewrite Hid. reflexivity.
  - intros osmid Hid Hty. run_to_dispatch Hhttp Hdata. rewrite Hu.
    rewrite bind_lift, (getitem_lookup data "osm_id" _ Hid).
    rewrite bind_lift. cbn [getitem]. rewrite Hty. reflexivity.
  - intros osmid Hid Hty. run_to_dispatch Hhttp Hdata. rewrite Hu.
    rewrite bind_lift, (getitem_lookup data "osm_id" _ Hid).
    rewrite bind_lift, (getitem_lookup data "osm_type" _ Hty). reflexivity.
Qed.

Lemma details_key_missing_witness :
  _get_geolocation_body keyless_env "Nowhere" (initial_state 0)
  = (Raise KeyError, set_trace [search_request "Nowhere"] (initial_state 0)).
Proof.
  refine (proj1 (details_key_missing keyless_env "Nowhere" (initial_state 0)
                   keyless_match _ eq_refl) eq_refl).
  exists (VList [VDict keyless_match]). split; reflexivity.
Defined.

Lemma requests_get_json_fail (env : Env) (u : string) (ps : list (string * value))
    (hs : list (string * string)) (s : state) :
  http env (trace s) {| url := u; params := ps; headers := hs |} = None ->
  requests_get_json env u ps hs s
  = (Raise RequestException,
     set_trace (trace s ++ [{| url := u; params := ps; headers := hs |}]) s).
Proof. intros H. unfold requests_get_json. rewrite H. reflexivity. Qed.

(** X10.  Nothing is retried and nothing is recovered: when a request
    fails, the failure leaves the function at once, and the failed
    request is the last one sent.  This holds for the forward search,
    for the details lookup and for the reverse lookup. *)
Theorem request_failure_propagates (env : Env) (s : state) :
  (forall location,
      http env (trace s) (search_request location) = None ->
      _get_geolocation_body env location s
      = (Raise RequestException, set_trace (trace s ++ [search_request location]) s)) /\
  (forall location data osmid osmtype,
      forward_match env s location data ->
      usable_coordinate (VDict data) = false ->
      details_key data = Ok (osmid, osmtype) ->
      http env (trace s ++ [search_request location]) (details_request osmid osmtype)
      = None ->
      _get_geolocation_body env location s
      = (Raise RequestException,
         set_trace (trace s ++ [search_request location;
                                details_request osmid osmtype]) s)) /\
  (forall lat lon,
      http env (trace s) (reverse_request lat lon) = None ->
      get_reverse_geolocation_body env (lat, lon) s
      = (Raise RequestException, set_trace (trace s ++ [reverse_request lat lon]) s)).
Proof.
  split; [|split].
  - intros location Hhttp. unfold _get_geolocation_body.
    apply bind_run_raise. apply requests_get_json_fail. exact Hhttp.
  - intros location data osmid osmtype (results & Hhttp & Hdata) Hu Hkey Hdet.
    run_to_dispatch Hhttp Hdata. rewrite Hu.
    unfold details_key in Hkey.
    destruct (getitem (VDict data) "osm_id") as [i|] eqn:Hid; [|discriminate Hkey].
    cbn [rbind] in Hkey.
    destruct (t <- getitem (VDict data) "osm_type" ;; c <- getitem0 t ;; upper c)
      as [t|] eqn:Hty; [|discriminate Hkey].
    cbn [rbind] in Hkey. inversion Hkey; subst i t.
    rewrite bind_lift. rewrite bind_lift.
    etransitivity; [apply bind_run_raise; apply requests_get_json_fail; exact Hdet|].
    rewrite set_trace_twice. reflexivity.
  - intros lat lon Hhttp. unfold get_reverse_geolocation_body.
    apply bind_run_raise. apply requests_get_json_fail. exact Hhttp.
Qed.

Lemma request_failure_propagates_witness :
  _get_geolocation_body offline_env "Porto" (initial_state 0)
  = (Raise RequestException, set_trace [search_request "Porto"] (initial_state 0)).
Proof.
  exact (proj1 (request_failure_propagates offline_env (initial_state 0)) "Porto" eq_refl).
Defined.

(** ** The coordinate and the timezone of [_get_timezone] *)

Lemma configured_coordinates (env : Env) :
  coordinate_section_ok (Configuration env) = true ->
  (location <- get_default (VDict (Configuration env)) "location" (VDict []) ;;
   get_default location "coordinate" (VDict []))
  = Ok (VDict match field (VDict (Configuration env)) ["location"; "coordinate"] with
              | Some (VDict c) => c
              | _ => []
              end).
Proof.
  unfold coordinate_section_ok, get_default. cbn [field rbind].
  destruct (lookup "location" (Configuration env)) as [[| | | | | |section]|];
    try discriminate; [|reflexivity].
  cbn [rbind].
  destruct (lookup "coordinate" section) as [[| | | | | |c]|]; try discriminate; reflexivity.
Qed.

(** X11.  [_get_lat_lon] takes the latitude from the keyword
    [latitude], else [lat], and the longitude from [longitude], else
    [lon], else [lng].  When both are non-empty it returns them and the
    configuration plays no part.  When either is empty it turns to the
    configuration: if the [location] section and its [coordinate] entry
    are each absent or a mapping, it returns the configured device
    coordinate for both, so the pair is never a mix of the two sources;
    if one of them is present and not a mapping, [.get] raises
    [AttributeError]. *)
Theorem lat_lon_source (env : Env) (kwargs : list (string * value)) (s : state) :
  let lat := first_truthy [lookup "latitude" kwargs] (get_or_none kwargs "lat") in
  let lon := first_truthy [lookup "longitude" kwargs; lookup "lon" kwargs]
               (get_or_none kwargs "lng") in
  (truthy lat && truthy lon = true ->
   _get_lat_lon env kwargs s = (Ok (lat, lon), s)) /\
  (truthy lat && truthy lon = false ->
   coordinate_section_ok (Configuration env) = true ->
   _get_lat_lon env kwargs s
   = (Ok (configured_coordinate (Configuration env) "latitude",
          configured_coordinate (Configuration env) "longitude"), s)) /\
  (truthy lat && truthy lon = false ->
   coordinate_section_ok (Configuration env) = false ->
   _get_lat_lon env kwargs s = (Raise AttributeError, s)).
Proof.
  intros lat lon.
  assert (Hlat : (get (VDict kwargs) "latitude" or get (VDict kwargs) "lat") = Ok lat).
  { rewrite !get_dict, or_else_Ok. unfold lat, get_or_none at 1 2. cbn [first_truthy].
    destruct (lookup "latitude" kwargs) as [v|]; [destruct (truthy v)|]; reflexivity. }
  assert (Hlon : (get (VDict kwargs) "longitude" or get (VDict kwargs) "lon"
                  or get (VDict kwargs) "lng") = Ok lon).
  { rewrite !get_dict, or_else_Ok. unfold lon, get_or_none at 1 2. cbn [first_truthy].
    destruct (lookup "longitude" kwargs) as [v|]; [destruct (truthy v); [reflexivity|]|];
      rewrite or_else_Ok; unfold get_or_none at 1 2;
      (destruct (lookup "lon" kwargs) as [w|]; [destruct (truthy w)|]; reflexivity). }
  clearbody lat lon.
  unfold _get_lat_lon. rewrite bind_lift, Hlat. rewrite bind_lift, Hlon.
  rewrite <- negb_andb.
  split; [|split].
  - intros ->. reflexivity.
  - intros -> Hcfg. cbn [negb].
    rewrite bind_lift, (configured_coordinates env Hcfg).
    unfold configured_coordinate.
    rewrite !bind_lift, !get_dict. unfold ret, get_or_none.
    change ["location"; "coordinate"; "latitude"]
      with (["location"; "coordinate"] ++ ["latitude"])%list.
    change ["location"; "coordinate"; "longitude"]
      with (["location"; "coordinate"] ++ ["longitude"])%list.
    cbn [field app].
    destruct (lookup "location" (Configuration env)) as [[| | | | | |section]|];
      try reflexivity.
    destruct (lookup "coordinate" section) as [[| | | | | |c]|]; try reflexivity.
    destruct (lookup "latitude" c), (lookup "longitude" c); reflexivity.
  - intros -> Hcfg. cbn [negb].
    rewrite bind_lift. unfold coordinate_section_ok in Hcfg.
    unfold get_default at 1. cbn [rbind].
    destruct (lookup "location" (Configuration env)) as [x|];
      [|discriminate Hcfg].
    destruct x as [| | | | | |section]; try reflexivity.
    unfold get_default.
    destruct (lookup "coordinate" section) as [y|]; [|discriminate Hcfg].
    destruct y; try reflexivity. discriminate Hcfg.
Qed.

Lemma lat_lon_source_witness :
  _get_lat_lon porto_env [("lon", VNone); ("lat", VStr "38.7")] (initial_state 0)
  = (Ok (VFloat 38.75%float, VFloat (-9.125)%float), initial_state 0).
Proof.
  exact (proj1 (proj2 (lat_lon_source porto_env [("lon", VNone); ("lat", VStr "38.7")]
                         (initial_state 0))) eq_refl eq_refl).
Defined.

Lemma replace_char_length (old new : ascii) (z : string) :
  String.length (replace_char old new z) = String.length z.
Proof. induction z as [|c z IH]; cbn; [reflexivity | rewrite IH; reflexivity]. Qed.

Lemma replace_char_get (old new : ascii) (z : string) (i : nat) :
  String.get i (replace_char old new z)
  = match String.get i z with
    | Some c => Some (if Ascii.eqb c old then new else c)
    | None => None
    end.
Proof.
  revert i. induction z as [|c z IH]; intros i; cbn; [reflexivity|].
  destruct i as [|i]; [reflexivity | apply IH].
Qed.

(** X12.  With the timezone index installed, [_get_timezone] converts
    the longitude and the latitude with [float] and asks the index for
    the zone at (lng, lat).  For a zone found, the record's code is the
    zone id and its name is the id with every "/" turned into a space:
    same length, a space wherever the id has "/", the id's character
    everywhere else.  Where the index finds no zone, [None.replace]
    raises [AttributeError].  No request is sent. *)
Theorem timezone_from_index (env : Env)
    (timezone_at : float -> float -> option (option string))
    (kwargs : list (string * value)) (s : state) (lat lon : value) (lng_f lat_f : float) :
  TimezoneFinder env = Some timezone_at ->
  _get_lat_lon env kwargs s = (Ok (lat, lon), s) ->
  py_float env lon = Ok lng_f ->
  py_float env lat = Ok lat_f ->
  (forall zone,
      timezone_at lng_f lat_f = Some (Some zone) ->
      exists name,
        _get_timezone env kwargs s
        = (Ok (VDict [("name", VStr name); ("code", VStr zone)]), s) /\
        String.length name = String.length zone /\
        (forall i, String.get i zone = Some "/"%char ->
                   String.get i name = Some " "%char) /\
        (forall i c, String.get i zone = Some c -> c <> "/"%char ->
                     String.get i name = Some c)) /\
  (timezone_at lng_f lat_f = Some None ->
   _get_timezone env kwargs s = (Raise AttributeError, s)).
Proof.
  intros Hfinder Hll Hlon Hlat.
  assert (Hrun : _get_timezone env kwargs s =
                 (tz <-- lift (match timezone_at lng_f lat_f with
                               | Some (Some z) => Ok (VStr z)
                               | Some None => Ok VNone
                               | None => Raise ValueError
                               end) ;;
                  name <-- lift (replace_slash tz) ;;
                  ret (VDict [("name", name); ("code", tz)])) s).
  { unfold _get_timezone. rewrite Hfinder.
    rewrite (bind_run _ _ _ _ _ Hll). cbv iota beta.
    rewrite bind_lift, Hlon. rewrite bind_lift, Hlat. reflexivity. }
  rewrite Hrun. clear Hrun.
  split.
  - intros zone Hzone. exists (replace_char "/"%char " "%char zone).
    rewrite bind_lift, Hzone.
    split; [reflexivity|]. split; [apply replace_char_length|]. split.
    + intros i Hc. rewrite replace_char_get, Hc. reflexivity.
    + intros i c Hc Hne. rewrite replace_char_get, Hc.
      destruct (Ascii.eqb_spec c "/"%char); [contradiction | reflexivity].
  - intros Hzone. rewrite bind_lift, Hzone. reflexivity.
Qed.

Lemma timezone_from_index_witness :
  (exists name,
      _get_timezone indexed_env [("lat", VStr "40.5"); ("lon", VStr "-3.5")]
        (initial_state 0)
      = (Ok (VDict [("name", VStr name); ("code", VStr "Europe/Madrid")]),
         initial_state 0) /\
      String.length name = String.length "Europe/Madrid") /\
  (_get_timezone indexed_env [("lat", VStr "40.5"); ("lon", VStr "-40.5")] (initial_state 0)
   = (Raise AttributeError, initial_state 0)).
Proof.
  split.
  - destruct (proj1 (timezone_from_index indexed_env _
                       [("lat", VStr "40.5"); ("lon", VStr "-3.5")] (initial_state 0)
                       (VStr "40.5") (VStr "-3.5") (-3.5)%float 40.5%float
                       eq_refl eq_refl eq_refl eq_refl) "Europe/Madrid" eq_refl)
      as (name & Hrun & Hlen & _).
    exists name. split; assumption.
  - exact (proj2 (timezone_from_index indexed_env _
                    [("lat", VStr "40.5"); ("lon", VStr "-40.5")] (initial_state 0)
                    (VStr "40.5") (VStr "-40.5") (-40.5)%float 40.5%float
                    eq_refl eq_refl eq_refl eq_refl) eq_refl).
Defined.

(** The run itself, for the record. *)
Example timezone_from_index_run :
  _get_timezone indexed_env [("lat", VStr "40.5"); ("lon", VStr "-3.5")] (initial_state 0)
  = (Ok (VDict [("name", VStr "Europe Madrid"); ("code", VStr "Europe/Madrid")]),
     initial_state 0).
Proof. reflexivity. Qed.

(** ** The requests of a resolution *)

Lemma geolocation_sent (env : Env) (location : string) (s : state) :
  exists sent,
    trace (snd (_get_geolocation env location s)) = (trace s ++ sent)%list /\
    (sent = [] \/
     sent = [search_request location] \/
     (exists osmid osmtype,
         sent = [search_request location; details_request osmid osmtype]) \/
     (exists lat lon, sent = [search_request location; reverse_request lat lon])).
Proof.
  assert (Hbody : exists sent,
             trace (snd (_get_geolocation_body env location s)) = (trace s ++ sent)%list /\
             (sent = [search_request location] \/
              (exists osmid osmtype,
                  sent = [search_request location; details_request osmid osmtype]) \/
              (exists lat lon, sent = [search_request location; reverse_request lat lon]))).
  { destruct (geolocation_body_state env location s)
      as [-> | [(osmid & osmtype & ->) | (lat & lon & ->)]].
    - exists [search_request location]. split; [reflexivity | auto].
    - exists [search_request location; details_request osmid osmtype].
      split; [reflexivity | eauto].
    - destruct (reverse_trace env lat lon
                  (set_trace (trace s ++ [search_request location]) s)) as [-> | ->].
      + exists [search_request location]. split; [reflexivity | auto].
      + exists [search_request location; reverse_request lat lon].
        split; [cbn [trace set_trace]; rewrite <- app_assoc; reflexivity | eauto 6]. }
  destruct Hbody as (sent & Ht & Hsent).
  unfold _get_geolocation.
  destruct (timed_lru_cache_cases String.eqb 600 geo_cache set_geo_cache
              (_get_geolocation_body env) location s)
    as [(v & t0 & _ & _ & ->) | [(v & s1 & Hf & ->) | (e & s1 & Hf & ->)]].
  - exists []. split; [cbn; rewrite app_nil_r; reflexivity | auto].
  - rewrite Hf in Ht. exists sent. split; [exact Ht | auto].
  - rewrite Hf in Ht. exists sent. split; [exact Ht | auto].
Qed.


(** X14.  Whatever is called and in whatever order, the module only
    ever sends its three requests: the search, the reverse lookup and the
    details lookup, each to its endpoint, asking for JSON, with the
    User-Agent header "OVOS/1.0". *)
Theorem only_module_requests (env : Env) (s : state) :
  reachable env s -> Forall module_request (trace s).
Proof.
  assert (Hgeo : forall s location,
             Forall module_request (trace s) ->
             Forall module_request (trace (snd (_get_geolocation env location s)))).
  { intros s0 location Hs0.
    destruct (geolocation_sent env location s0) as (sent & -> & Hsent).
    apply Forall_app. split; [exact Hs0|].
    destruct Hsent as [-> | [-> | [(i & t & ->) | (a & b & ->)]]];
      repeat (apply Forall_cons; [unfold module_request; eauto 7|]);
      apply Forall_nil. }
  induction 1 as [t0 | s dt _ IH _ | s location _ IH | s location _ IH | s lat lon _ IH].
  - constructor.
  - exact IH.
  - rewrite get_geolocation_state. apply Hgeo, IH.
  - apply Hgeo, IH.
  - destruct (reverse_trace env lat lon s) as [-> | ->]; [exact IH|].
    apply Forall_app. split; [exact IH|].
    constructor; [|constructor]. right. left. eauto.
Qed.

Lemma only_module_requests_witness :
  reachable iberia_env iberia_state /\ Forall module_request (trace iberia_state).
Proof.
  split; [exact iberia_state_reachable|].
  exact (only_module_requests iberia_env iberia_state iberia_state_reachable).
Defined.

(** ** What the facade returns *)


Lemma location_record_is_record (a b c d e f g h i j : value) :
  is_location_record (location_record a b c d e f g h i j).
Proof. unfold is_location_record. eauto 12. Qed.

(** X15.  In every state the module can reach, the facade is a plain
    projection of what [_get_geolocation] returns: the record's city
    name, state name, country name, latitude and longitude under the
    keys city, region, country, latitude, longitude, and under timezone
    the code of the record's timezone.  It fails only where that
    timezone has no code to read, and it passes on every exception of
    [_get_geolocation] unchanged; in both cases the state is the one
    [_get_geolocation] left. *)
Theorem get_geolocation_projection (env : Env) (location : string) (s : state) :
  reachable env s ->
  (forall loc s',
      _get_geolocation env location s = (Ok loc, s') ->
      exists city region country latitude longitude tz,
        field loc ["city"; "name"] = Some city /\
        field loc ["city"; "state"; "name"] = Some region /\
        field loc ["city"; "state"; "country"; "name"] = Some country /\
        field loc ["coordinate"; "latitude"] = Some latitude /\
        field loc ["coordinate"; "longitude"] = Some longitude /\
        field loc ["timezone"] = Some tz /\
        get_geolocation env location s =
          (match getitem tz "code" with
           | Ok code => Ok (VDict [("city", city);
                                   ("region", region);
                                   ("country", country);
                                   ("latitude", latitude);
                                   ("longitude", longitude);
                                   ("timezone", code)])
           | Raise e => Raise e
           end, s')) /\
  (forall e s',
      _get_geolocation env location s = (Raise e, s') ->
      get_geolocation env location s = (Raise e, s')).
Proof.
  intros Hreach. split.
  - intros loc s' H.
    assert (Hrec : forall a b c d e f g h i tz kwargs s0,
               _get_timezone env kwargs s0 = (Ok tz, s0) ->
               is_location_record (location_record a b c d e f g h i tz))
      by (intros; apply location_record_is_record).
    pose proof (reachable_keeps_records env is_location_record Hrec s Hreach) as Hinv.
    destruct (proj2 (geolocation_keeps_records env is_location_record Hrec
                       location s Hinv) loc s' H)
      as (address & city_code & city_name & state_code & state_name & country_code
          & country_name & latitude & longitude & tz & ->).
    exists city_name, state_name, country_name, latitude, longitude, tz.
    repeat split.
    unfold get_geolocation. rewrite (bind_run _ _ _ _ _ H).
    unfold location_record. rewrite !bind_lift. cbn [getitem lookup String.eqb Ascii.eqb Bool.eqb rbind].
    destruct (getitem tz "code"); reflexivity.
  - intros e s' H. unfold get_geolocation. apply bind_run_raise. exact H.
Qed.

Lemma get_geolocation_projection_witness :
  reachable iberia_env iberia_state /\
  get_geolocation iberia_env "Porto" iberia_state
  = (Ok (VDict [("city", VStr "Porto");
                ("region", VStr "Porto");
                ("country", VStr "Portugal");
                ("latitude", VStr "41.1495");
                ("longitude", VStr "-8.6108");
                ("timezone", VStr "Europe/Lisbon")]),
     iberia_state).
Proof.
  split; [exact iberia_state_reachable|].
  destruct (proj1 (get_geolocation_projection iberia_env "Porto" iberia_state
                     iberia_state_reachable) _ _ eq_refl)
    as (city & region & country & latitude & longitude & tz
        & Hcity & Hregion & Hcountry & Hlat & Hlon & Htz & Hrun).
  rewrite Hrun.
  inversion Hcity; inversion Hregion; inversion Hcountry; inversion Hlat;
    inversion Hlon; inversion Htz; subst.
  reflexivity.
Defined.

(** ** Witnesses for the unknown location *)

Lemma get_geolocation_never_unknown_witness :
  reachable iberia_env iberia_state /\
  fst (get_geolocation iberia_env "Atlantis" iberia_state) <> Raise LocationNotFoundError.
Proof.
  split; [exact iberia_state_reachable|].
  exact (get_geolocation_never_unknown iberia_env "Atlantis" iberia_state
           iberia_state_reachable).
Defined.

Lemma get_geolocation_empty_result_witness :
  get_geolocation iberia_env "Atlantis" iberia_state
  = (Raise IndexError,
     set_trace (trace iberia_state ++ [search_request "Atlantis"]) iberia_state).
Proof.
  exact (get_geolocation_empty_result iberia_env "Atlantis" iberia_state eq_refl eq_refl).
Defined.
